(** * app/server.py: the distracted-driver model server

    A shallow embedding of [app/server.py].  The script talks to four
    things it does not own: the local file system, the network, the
    console and the HTTP listener.  They are gathered in a [World]; every
    action of the script on one of them is a step of a state-and-exception
    monad [IO] that also appends what it did to the world's [trace].  The
    library calls whose results the script only passes along (fastai's
    [load_learner], [open_image] and [predict]) are the operations of
    the class [Libraries]. *)

From Stdlib Require Import Ascii String List ZArith Bool Lia.
From Stdlib.Strings Require Import Byte.
From stdpp Require Import gmap strings.
Import ListNotations.

Set Warnings "-register-all".
Local Open Scope Z_scope.

(** ** Python values the script handles *)

Module Py.

(** What can sit among the [args] of an exception: text, a number,
    [None], bytes, or a list or tuple of such values. *)
Inductive Value :=
| VStr (s : string)
| VInt (n : Z)
| VNone
| VBytes (data : list byte)
| VList (items : list Value).

(** An exception object: its class, the classes it inherits from (what
    an [except C] clause looks at) and its [args]. *)
Record Exn := MkExn {
  exn_class : string;
  exn_bases : list string;
  exn_args : list Value
}.

Definition isinstance (e : Exn) (cls : string) : bool :=
  bool_decide (cls = exn_class e) || bool_decide (cls ∈ exn_bases e).

Definition exception_bases : list string :=
  ["Exception"; "BaseException"; "object"]%string.

Definition RuntimeError (args : list Value) : Exn :=
  MkExn "RuntimeError" exception_bases args.

Definition KeyError (args : list Value) : Exn :=
  MkExn "KeyError" ("LookupError"%string :: exception_bases) args.

Definition AttributeError (args : list Value) : Exn :=
  MkExn "AttributeError" exception_bases args.

Definition FileNotFoundError (args : list Value) : Exn :=
  MkExn "FileNotFoundError" ("OSError"%string :: exception_bases) args.

Definition TypeError (args : list Value) : Exn :=
  MkExn "TypeError" exception_bases args.

Definition UnicodeDecodeError (args : list Value) : Exn :=
  MkExn "UnicodeDecodeError"
        ("UnicodeError"%string :: "ValueError"%string :: exception_bases) args.

(** [needle in hay] on two [str] values: substring search. *)
Fixpoint str_in (needle hay : string) : bool :=
  String.prefix needle hay ||
  match hay with
  | EmptyString => false
  | String _ rest => str_in needle rest
  end.

(** [x in xs] on a list of [str]. *)
Definition list_in (x : string) (xs : list string) : bool :=
  existsb (String.eqb x) xs.

(** [Path.__truediv__]: [dir / name]. *)
Definition joinpath (dir name : string) : string :=
  (dir +:+ "/" +:+ name)%string.

(** The outcome of evaluating an expression or running a block. *)
Inductive Result (A : Type) : Type :=
| Ok (a : A)
| Raise (e : Exn).
Arguments Ok {A} a.
Arguments Raise {A} e.

Definition is_ok {A} (r : Result A) : bool :=
  match r with Ok _ => true | Raise _ => false end.

(** [needle in v] for a [str] needle: substring search in a [str],
    membership in a list or tuple, and a [TypeError] on a value that
    cannot be searched for a [str]. *)
Definition py_in (needle : string) (v : Value) : Result bool :=
  match v with
  | VStr hay => Ok (str_in needle hay)
  | VList items =>
      Ok (existsb (fun item =>
                     match item with
                     | VStr s => String.eqb s needle
                     | _ => false
                     end) items)
  | VInt _ => Raise (TypeError [VStr "argument of type 'int' is not iterable"])
  | VNone => Raise (TypeError [VStr "argument of type 'NoneType' is not iterable"])
  | VBytes _ => Raise (TypeError [VStr "a bytes-like object is required, not 'str'"])
  end.

(** *** Text files

    A [str] is kept as the bytes of its UTF-8 form, so encoding it as
    UTF-8 changes nothing.  The host's text encoding is taken to be
    UTF-8 as well: a text-mode read checks that the bytes of the file
    are well-formed UTF-8 and, with the default [newline=None], turns
    every CR LF and every lone CR into LF. *)

Definition between (lo hi : N) (b : byte) : bool :=
  (lo <=? Byte.to_N b)%N && (Byte.to_N b <=? hi)%N.

(** A byte that continues a sequence. *)
Definition continuation (b : byte) : bool := between 128 191 b.

(** Well-formed UTF-8: no overlong forms, no surrogates, nothing above
    U+10FFFF. *)
Fixpoint utf8_valid (data : list byte) : bool :=
  match data with
  | [] => true
  | b0 :: rest =>
      if between 0 127 b0 then utf8_valid rest
      else if between 194 223 b0 then
        match rest with
        | b1 :: r1 => continuation b1 && utf8_valid r1
        | _ => false
        end
      else if between 224 239 b0 then
        match rest with
        | b1 :: b2 :: r2 =>
            (if between 224 224 b0 then between 160 191 b1
             else if between 237 237 b0 then between 128 159 b1
             else continuation b1)
            && continuation b2 && utf8_valid r2
        | _ => false
        end
      else if between 240 244 b0 then
        match rest with
        | b1 :: b2 :: b3 :: r3 =>
            (if between 240 240 b0 then between 144 191 b1
             else if between 244 244 b0 then between 128 143 b1
             else continuation b1)
            && continuation b2 && continuation b3 && utf8_valid r3
        | _ => false
        end
      else false
  end.

(** Universal newlines on input. *)
Fixpoint universal_newlines (data : list byte) : list byte :=
  match data with
  | [] => []
  | x0d :: rest =>
      x0a :: match rest with
             | x0a :: rest' => universal_newlines rest'
             | _ => universal_newlines rest
             end
  | b :: rest => b :: universal_newlines rest
  end.

(** What a text-mode [read()] makes of the bytes of a file.  The
    position and the reason that a real [UnicodeDecodeError] carries are
    left out of its arguments. *)
Definition text_decode (content : list byte) : Result string :=
  if utf8_valid content
  then Ok (string_of_list_byte (universal_newlines content))
  else Raise (UnicodeDecodeError [VStr "utf-8"; VBytes content]).

(** [s.encode('utf-8')], the bytes a text response is sent as. *)
Definition encode_utf8 (s : string) : list byte := list_byte_of_string s.

(** JSON documents, as far as the script builds them. *)
Inductive Json :=
| JString (s : string)
| JObject (fields : list (string * Json)).

End Py.
Export Py.

(** ** HTTP messages *)

Module Http.

(** A value of a parsed form: a plain text field or an uploaded file. *)
Inductive FormValue :=
| FormText (s : string)
| UploadFile (filename : string) (content : list byte).

(** What a handler sees of a request.  [req_form] is the dictionary
    behind [await request.form()]. *)
Record Request := MkRequest {
  req_method : string;
  req_path : string;
  req_form : gmap string FormValue
}.

Inductive Body :=
| TextBody (s : string)
| JsonBody (j : Json).

Record Response := MkResponse {
  status_code : Z;
  media_type : string;
  body : Body
}.

(** [HTMLResponse(content)] and [JSONResponse(content)] with their
    default status. *)
Definition HTMLResponse (content : string) : Response :=
  MkResponse 200 "text/html" (TextBody content).

Definition JSONResponse (content : Json) : Response :=
  MkResponse 200 "application/json" (JsonBody content).

(** What the client side of [aiohttp] hands back for one GET: the
    status line and what reading the body gives. *)
Record ClientResponse := MkClientResponse {
  resp_status : Z;
  resp_read : Result (list byte)
}.

Inductive GetOutcome :=
| GetFails (e : Exn)
| GetResponds (r : ClientResponse).

End Http.
Export Http.

(** ** The world and the [IO] monad *)

(** What [open(dest, 'wb')] followed by [f.write(data)] can do: succeed,
    fail to open (nothing is touched), or fail after [written] bytes. *)
Inductive WriteOutcome :=
| WriteDone
| OpenFails (e : Exn)
| WriteFails (written : nat) (e : Exn).

Inductive Event :=
| EvExists (p : string)
| EvGet (url : string)
| EvWrite (p : string) (data : list byte)
| EvRead (p : string)
| EvLoad (dir file : string)
| EvPrint (e : Exn)
| EvListen (host : string) (port : Z)
| EvServe (req : Request) (resp : Response).

Record World := MkWorld {
  fs : gmap string (list byte);
  remote : string -> GetOutcome;
  storage : string -> list byte -> WriteOutcome;
  trace : list Event
}.

Definition log (ev : Event) (w : World) : World :=
  MkWorld (fs w) (remote w) (storage w) (trace w ++ [ev]).

Definition set_file (p : string) (data : list byte) (w : World) : World :=
  MkWorld (<[p := data]> (fs w)) (remote w) (storage w) (trace w).

Definition IO (A : Type) : Type := World -> Result A * World.

Definition ret {A} (a : A) : IO A := fun w => (Ok a, w).

Definition raise {A} (e : Exn) : IO A := fun w => (Raise e, w).

Definition bind {A B} (m : IO A) (k : A -> IO B) : IO B :=
  fun w =>
    match m w with
    | (Ok a, w') => k a w'
    | (Raise e, w') => (Raise e, w')
    end.

(** [try: body except: handler]; a handler that does not match the
    exception re-raises it. *)
Definition try_except {A} (body : IO A) (handler : Exn -> IO A) : IO A :=
  fun w =>
    match body w with
    | (Ok a, w') => (Ok a, w')
    | (Raise e, w') => handler e w'
    end.

Definition lift {A} (r : Result A) : IO A := fun w => (r, w).

Declare Scope io_scope.
Delimit Scope io_scope with io.
Notation "x <- m ;; k" := (bind m (fun x => k))
  (at level 100, m at next level, right associativity) : io_scope.
Notation "m ;; k" := (bind m (fun _ => k))
  (at level 100, right associativity) : io_scope.
Local Open Scope io_scope.

(** *** Primitive actions

    What they do to the world is recorded in its trace. *)

(** [dest.exists()] *)
Definition path_exists (p : string) : IO bool :=
  fun w => (Ok (bool_decide (is_Some (fs w !! p))), log (EvExists p) w).

(** [session.get(url)] inside a fresh [ClientSession]. *)
Definition session_get (url : string) : IO ClientResponse :=
  fun w =>
    match remote w url with
    | GetFails e => (Raise e, log (EvGet url) w)
    | GetResponds r => (Ok r, log (EvGet url) w)
    end.

(** [await response.read()] *)
Definition response_read (r : ClientResponse) : IO (list byte) :=
  lift (resp_read r).

(** [with open(dest, 'wb') as f: f.write(data)] *)
Definition open_wb_write (dest : string) (data : list byte) : IO unit :=
  fun w =>
    match storage w dest data with
    | WriteDone => (Ok tt, log (EvWrite dest data) (set_file dest data w))
    | OpenFails e => (Raise e, w)
    | WriteFails n e =>
        (Raise e, log (EvWrite dest (take n data)) (set_file dest (take n data) w))
    end.

(** [print(e)] *)
Definition print (e : Exn) : IO unit :=
  fun w => (Ok tt, log (EvPrint e) w).

(** ** download_file *)

Definition download_file (url dest : string) : IO unit :=
  found <- path_exists dest ;;
  if found then ret tt
  else
    response <- session_get url ;;
    data <- response_read response ;;
    open_wb_write dest data.

(** ** The libraries behind the script *)

(** The calls into fastai and into Starlette's router.

    - [load_learner files dir file] is fastai's [load_learner(dir, file)]
      on a disk holding [files]; it may raise.
    - [open_image] decodes uploaded bytes or raises; [predict] is
      [learn.predict(img)], the triple of category, index and
      probabilities; [category_str] is [str] on a category.
    - [unrouted] is the framework's own answer to a request that none
      of the two routes of the script takes (the [/static] mount, other
      paths and methods), made from the files it finds. *)
Class Libraries := {
  Learner : Type;
  Image : Type;
  Category : Type;
  Tensor : Type;
  load_learner : gmap string (list byte) -> string -> string -> Result Learner;
  open_image : list byte -> Result Image;
  predict : Learner -> Image -> Category * Tensor * Tensor;
  category_str : Category -> string;
  unrouted : gmap string (list byte) -> Request -> Response
}.

(** ** Module-level names *)

Record Globals := MkGlobals {
  export_file_url : string;
  export_file_name : string;
  classes : list string;
  path : string
}.

(** The values [server.py] binds; [here] is [Path(__file__).parent]. *)
Definition server_globals (here : string) : Globals :=
  {| export_file_url := "https://www.dropbox.com/s/v2v5osbpk4m6i4s/driver?dl=0";
     export_file_name := "driver";
     classes := [ "c0: normal driving";
                  "c1: texting - right";
                  "c2: talking on the phone - right";
                  "c3: texting - left";
                  "c4: talking on the phone - left";
                  "c5: operating the radio";
                  "c6: drinking";
                  "c7: reaching behind";
                  "c8: hair and makeup";
                  "c9: talking to passenger" ]%string;
     path := here |}.

Definition with_classes (cs : list string) (g : Globals) : Globals :=
  {| export_file_url := export_file_url g;
     export_file_name := export_file_name g;
     classes := cs;
     path := path g |}.

Definition nl : string := String "010"%char EmptyString.

Definition cpu_only_message : string :=
  (nl +:+ nl +:+
   "This model was trained with an old version of fastai and will not work in a CPU environment."
   +:+ nl +:+ nl +:+
   "Please update the fastai library in your training environment and export your model again."
   +:+ nl +:+ nl +:+
   "See instructions for 'Returning to work' at https://course.fast.ai.")%string.

Section Server.

Context `{Lib : Libraries}.

(** ** setup_learner *)

(** [load_learner(path, export_file_name)] *)
Definition load_learner_io (dir file : string) : IO Learner :=
  fun w => (load_learner (fs w) dir file, log (EvLoad dir file) w).

(** [len(e.args) > 0 and 'CPU-only machine' in e.args[0]]; the right
    operand is evaluated only when the left one holds. *)
Definition cpu_only_test (e : Exn) : Result bool :=
  if (0 <? length (exn_args e))%nat
  then py_in "CPU-only machine" (hd VNone (exn_args e))
  else Ok false.

(** The [except RuntimeError as e:] clause.  An exception raised while
    the test is evaluated leaves the clause in place of [e]. *)
Definition on_load_error (e : Exn) : IO Learner :=
  if isinstance e "RuntimeError" then
    found <- lift (cpu_only_test e) ;;
    if found then
      print e ;;
      raise (RuntimeError [VStr cpu_only_message])
    else raise e
  else raise e.

Definition setup_learner (g : Globals) : IO Learner :=
  download_file (export_file_url g) (joinpath (path g) (export_file_name g)) ;;
  try_except (load_learner_io (path g) (export_file_name g)) on_load_error.

(** ** The two routes *)

(** [html_file.open().read()]: a text-mode read of the whole file. *)
Definition open_read (p : string) : IO string :=
  fun w =>
    match fs w !! p with
    | Some content => (text_decode content, log (EvRead p) w)
    | None => (Raise (FileNotFoundError [VInt 2; VStr "No such file or directory"]), w)
    end.

Definition homepage (g : Globals) (request : Request) : IO Response :=
  let html_file := joinpath (joinpath (path g) "view") "index.html" in
  content <- open_read html_file ;;
  ret (HTMLResponse content).

(** [img_data['file']] *)
Definition form_getitem (form : gmap string FormValue) (key : string) : IO FormValue :=
  match form !! key with
  | Some v => ret v
  | None => raise (KeyError [VStr key])
  end.

(** [await field.read()]; a text field is a [str], which has no [read]. *)
Definition field_read (field : FormValue) : IO (list byte) :=
  match field with
  | UploadFile _ content => ret content
  | FormText _ => raise (AttributeError [VStr "'str' object has no attribute 'read'"])
  end.

Definition analyze (g : Globals) (learn : Learner) (request : Request) : IO Response :=
  img_data <- ret (req_form request) ;;
  field <- form_getitem img_data "file" ;;
  img_bytes <- field_read field ;;
  img <- lift (open_image img_bytes) ;;
  let prediction := (predict learn img).1.1 in
  ret (JSONResponse (JObject [("result"%string, JString (category_str prediction))])).

(** ** The application and the listener *)

(** The routes registered with [@app.route]: ['/'] (no [methods]
    argument) and ['/analyze'] with [methods=['POST']]. *)
Definition app (g : Globals) (learn : Learner) (request : Request) : IO Response :=
  if String.eqb (req_path request) "/" && String.eqb (req_method request) "GET"
  then homepage g request
  else if String.eqb (req_path request) "/analyze"
          && list_in (req_method request) ["POST"%string]
  then analyze g learn request
  else fun w => (Ok (unrouted (fs w) request), w).

(** What the client gets when an endpoint raises: nothing in the
    script catches the exception, and Starlette answers for it with its
    plain 500 page. *)
Definition server_error : Response :=
  MkResponse 500 "text/plain" (TextBody "Internal Server Error").

Definition respond (endpoint : Request -> IO Response) (request : Request)
  (w : World) : Response * World :=
  match endpoint request w with
  | (Ok response, w') => (response, w')
  | (Raise _, w') => (server_error, w')
  end.

(** What reaches the process while it listens: a request, or a file
    somebody else puts on the disk between two requests. *)
Inductive Incoming :=
| Arrives (request : Request)
| Replaces (p : string) (content : list byte).

Fixpoint serve (endpoint : Request -> IO Response) (incoming : list Incoming)
  (w : World) : World :=
  match incoming with
  | [] => w
  | Arrives request :: rest =>
      let (response, w') := respond endpoint request w in
      serve endpoint rest (log (EvServe request response) w')
  | Replaces p content :: rest =>
      serve endpoint rest (set_file p content w)
  end.

(** [uvicorn.run(app=app, host=..., port=..., log_level="info")] *)
Definition uvicorn_run (endpoint : Request -> IO Response) (host : string)
  (port : Z) (incoming : list Incoming) : IO unit :=
  fun w => (Ok tt, serve endpoint incoming (log (EvListen host port) w)).

(** ** The script, top to bottom *)

(** [name] is [__name__], [argv] is [sys.argv].  The event loop runs
    the single task [setup_learner()] to its end and [learn] is bound to
    its result; an exception leaves the script there. *)
Definition server_py (g : Globals) (name : string) (argv : list string)
  (incoming : list Incoming) : IO unit :=
  learn <- setup_learner g ;;
  if String.eqb name "__main__" then
    if list_in "serve" argv then
      uvicorn_run (app g learn) "0.0.0.0" 5000 incoming
    else ret tt
  else ret tt.

End Server.

(** ** Reading a trace *)

(** The events a run added to the world's trace. *)
Definition events_since (w w' : World) : list Event :=
  drop (length (trace w)) (trace w').

(** The URLs fetched, in order. *)
Fixpoint gets (evs : list Event) : list string :=
  match evs with
  | [] => []
  | EvGet url :: rest => url :: gets rest
  | _ :: rest => gets rest
  end.

Fixpoint loads (evs : list Event) : nat :=
  match evs with
  | [] => 0
  | EvLoad _ _ :: rest => S (loads rest)
  | _ :: rest => loads rest
  end.

Definition is_fetch (ev : Event) : bool :=
  match ev with
  | EvExists _ | EvGet _ | EvWrite _ _ => true
  | _ => false
  end.

Definition is_listen (ev : Event) : bool :=
  match ev with
  | EvListen _ _ => true
  | _ => false
  end.

Definition is_serving (ev : Event) : bool :=
  match ev with
  | EvRead _ | EvServe _ _ => true
  | _ => false
  end.


(** ** Later starts of the process *)

(** A later start finds the disk and the history as the previous run
    left them; the network and the storage may behave differently. *)
Definition later (env : (string -> GetOutcome) * (string -> list byte -> WriteOutcome))
  (w : World) : World :=
  MkWorld (fs w) env.1 env.2 (trace w).

Fixpoint later_runs (url dest : string)
  (envs : list ((string -> GetOutcome) * (string -> list byte -> WriteOutcome)))
  (w : World) : list (Result unit) * World :=
  match envs with
  | [] => ([], w)
  | env :: rest =>
      let (r, w1) := download_file url dest (later env w) in
      let (rs, w2) := later_runs url dest rest w1 in
      (r :: rs, w2)
  end.

(** The three ways the events of one [download_file] can look. *)
Inductive fetch_run (url dest : string) : list Event -> Prop :=
| fetch_skipped :
    fetch_run url dest [EvExists dest]
| fetch_no_body :
    fetch_run url dest [EvExists dest; EvGet url]
| fetch_wrote (data : list byte) :
    fetch_run url dest [EvExists dest; EvGet url; EvWrite dest data].



(** ** A small stand-in for the libraries

    Enough of a model zoo to run the script: an artifact is its bytes,
    one that starts with a zero byte was exported on a GPU machine, one
    that starts with the byte 5 or 6 makes the loader raise another
    [RuntimeError]; an
    image is a byte string that starts with the PNG magic byte; the
    label is picked by the first byte of the artifact. *)
Module Demo.

Definition cuda_error : Exn :=
  RuntimeError [VStr "Attempting to deserialize object on a CUDA device. If you are running on a CPU-only machine, please use torch.load with map_location='cpu'."].

Definition unpickling_error : Exn :=
  MkExn "UnpicklingError" ("PickleError"%string :: exception_bases)
        [VStr "invalid load key, '<'."].

Definition not_an_image : Exn :=
  MkExn "UnidentifiedImageError" ("OSError"%string :: exception_bases)
        [VStr "cannot identify image file"].

(** An error of the loader whose only argument is a number, and one
    whose message is about something else than the machine. *)
Definition numbered_error : Exn := RuntimeError [VInt 5].

Definition size_error : Exn :=
  RuntimeError [VStr "storage has wrong size: expected 4 got 2"].

Definition demo_load (files : gmap string (list byte)) (dir file : string)
  : Result (list byte) :=
  match files !! joinpath dir file with
  | None => Raise (FileNotFoundError [VInt 2; VStr "No such file or directory"])
  | Some (x00 :: _) => Raise cuda_error
  | Some (x05 :: _) => Raise numbered_error
  | Some (x06 :: _) => Raise size_error
  | Some (x80 :: rest) => Ok rest
  | Some _ => Raise unpickling_error
  end.

Definition demo_open_image (data : list byte) : Result (list byte) :=
  match data with
  | x89 :: _ => Ok data
  | _ => Raise not_an_image
  end.

Definition demo_predict (learn img : list byte) : string * unit * unit :=
  (match learn with
   | x01 :: _ => "c1: texting - right"%string
   | _ => "c0: normal driving"%string
   end, tt, tt).

Definition not_found : Response :=
  MkResponse 404 "text/plain" (TextBody "Not Found").

Definition demo_libraries : Libraries := {|
  Learner := list byte;
  Image := list byte;
  Category := string;
  Tensor := unit;
  load_learner := demo_load;
  open_image := demo_open_image;
  predict := demo_predict;
  category_str := fun c => c;
  unrouted := fun _ _ => not_found
|}.

Definition demo_globals : Globals := server_globals "app".

Definition error_page : list byte := list_byte_of_string "<html>404</html>".

Definition model_file : list byte := [x80; x01; x02].

Definition index_html : list byte := list_byte_of_string "<h1>Drivers</h1>".

(** A network that answers every GET with the given status and body,
    and a disk that takes every write. *)
Definition answering (status : Z) (page : list byte) : string -> GetOutcome :=
  fun _ => GetResponds (MkClientResponse status (Ok page)).

Definition unreachable : string -> GetOutcome :=
  fun _ => GetFails (MkExn "ClientConnectorError" ("OSError"%string :: exception_bases)
                           [VStr "Cannot connect to host"]).

Definition sound_disk : string -> list byte -> WriteOutcome :=
  fun _ _ => WriteDone.

Definition world (files : gmap string (list byte)) (net : string -> GetOutcome) : World :=
  MkWorld files net sound_disk [].

Definition upload (data : list byte) : Request :=
  MkRequest "POST" "/analyze" {[ "file"%string := UploadFile "photo.png" data ]}.

Definition get_index : Request := MkRequest "GET" "/" ∅.

End Demo.

(** ** What a listener was asked and what it was given *)

(** The requests answered, in order. *)
Fixpoint served_requests (evs : list Event) : list Request :=
  match evs with
  | [] => []
  | EvServe request _ :: rest => request :: served_requests rest
  | _ :: rest => served_requests rest
  end.

(** The requests that arrived, in order. *)
Fixpoint arrivals (incoming : list Incoming) : list Request :=
  match incoming with
  | [] => []
  | Arrives request :: rest => request :: arrivals rest
  | Replaces _ _ :: rest => arrivals rest
  end.

(** The disk after the files somebody else put there, and nothing more. *)
Fixpoint replaced (incoming : list Incoming) (files : gmap string (list byte))
  : gmap string (list byte) :=
  match incoming with
  | [] => files
  | Arrives _ :: rest => replaced rest files
  | Replaces p content :: rest => replaced rest (<[p := content]> files)
  end.

(** ** Hosts that misbehave *)
Module Faults.

Definition no_space : Exn :=
  MkExn "OSError" exception_bases [VInt 28; VStr "No space left on device"].

Definition permission_denied : Exn :=
  MkExn "PermissionError" ("OSError"%string :: exception_bases)
        [VInt 13; VStr "Permission denied"].

(** A disk that gives up after two bytes, and one that cannot be opened. *)
Definition full_disk : string -> list byte -> WriteOutcome :=
  fun _ _ => WriteFails 2 no_space.

Definition read_only_disk : string -> list byte -> WriteOutcome :=
  fun _ _ => OpenFails permission_denied.

(** A network whose failure reads like the error of a GPU export. *)
Definition confusing_network : string -> GetOutcome :=
  fun _ => GetFails Demo.cuda_error.

Definition text_upload : Request :=
  MkRequest "POST" "/analyze" {[ "file"%string := FormText "photo.png" ]}.

Definition empty_post : Request := MkRequest "POST" "/analyze" ∅.

End Faults.

(** * Properties *)

(** ** The monad *)

Lemma bind_ret {A B} (a : A) (k : A -> IO B) (w : World) :
  bind (ret a) k w = k a w.
Proof. reflexivity. Qed.

Lemma bind_raise {A B} (e : Exn) (k : A -> IO B) (w : World) :
  bind (raise e) k w = (Raise e, w).
Proof. reflexivity. Qed.

Lemma bind_bind {A B C} (m : IO A) (k : A -> IO B) (h : B -> IO C) (w : World) :
  bind (bind m k) h w = bind m (fun a => bind (k a) h) w.
Proof. unfold bind. destruct (m w) as [[a|e] w']; reflexivity. Qed.

Lemma try_except_raise {A} (e : Exn) (handler : Exn -> IO A) (w : World) :
  try_except (raise e) handler w = handler e w.
Proof. reflexivity. Qed.

Lemma try_except_ok {A} (body : IO A) (handler : Exn -> IO A) (w w' : World) (a : A) :
  body w = (Ok a, w') -> try_except body handler w = (Ok a, w').
Proof. intros E. unfold try_except. rewrite E. reflexivity. Qed.

(** ** Traces *)

Lemma events_since_app (w w' : World) (evs : list Event) :
  trace w' = trace w ++ evs -> events_since w w' = evs.
Proof.
  intros E. unfold events_since. rewrite E. apply drop_app_length.
Qed.

Lemma events_since_refl (w : World) : events_since w w = [].
Proof. apply events_since_app. symmetry. apply app_nil_r. Qed.

Lemma gets_app (xs ys : list Event) : gets (xs ++ ys) = gets xs ++ gets ys.
Proof.
  induction xs as [|ev xs IH]; [reflexivity|].
  destruct ev; simpl; rewrite IH; reflexivity.
Qed.

Lemma loads_app (xs ys : list Event) : loads (xs ++ ys) = (loads xs + loads ys)%nat.
Proof.
  induction xs as [|ev xs IH]; [reflexivity|].
  destruct ev; simpl; rewrite IH; reflexivity.
Qed.

(** ** download_file *)

Lemma download_file_present (url dest : string) (w : World) :
  is_Some (fs w !! dest) ->
  download_file url dest w = (Ok tt, log (EvExists dest) w).
Proof.
  intros Hsome. unfold download_file, bind, path_exists.
  rewrite bool_decide_eq_true_2 by exact Hsome. reflexivity.
Qed.

(** Every way [download_file] can go when the destination is missing. *)
Lemma download_file_absent (url dest : string) (w : World) :
  fs w !! dest = None ->
  download_file url dest w =
    let w1 := log (EvGet url) (log (EvExists dest) w) in
    match remote w url with
    | GetFails e => (Raise e, w1)
    | GetResponds r =>
        match resp_read r with
        | Raise e => (Raise e, w1)
        | Ok data => open_wb_write dest data w1
        end
    end.
Proof.
  intros Hnone. unfold download_file, bind, path_exists.
  rewrite bool_decide_eq_false_2 by (rewrite Hnone; apply is_Some_None).
  unfold session_get, response_read, lift. simpl.
  destruct (remote w url) as [e|r]; [reflexivity|].
  destruct (resp_read r); reflexivity.
Qed.

Lemma download_file_written (url dest : string) (w : World)
  (resp : ClientResponse) (data : list byte) :
  fs w !! dest = None ->
  remote w url = GetResponds resp ->
  resp_read resp = Ok data ->
  storage w dest data = WriteDone ->
  download_file url dest w =
    (Ok tt, log (EvWrite dest data)
              (set_file dest data (log (EvGet url) (log (EvExists dest) w)))).
Proof.
  intros Hnone Hrem Hread Hsto.
  rewrite (download_file_absent url dest w Hnone), Hrem, Hread.
  unfold open_wb_write. cbn [storage log]. rewrite Hsto. reflexivity.
Qed.

(** C2. When something already sits at the destination, [download_file]
    returns at once: the only thing it did is the existence test, so it
    made no network call, and the file system, the destination's bytes
    among it, is as it was. *)
Theorem download_file_existing_noop (url dest : string) (w : World) :
  is_Some (fs w !! dest) ->
  let '(r, w') := download_file url dest w in
  r = Ok tt /\
  events_since w w' = [EvExists dest] /\
  gets (events_since w w') = [] /\
  fs w' = fs w /\
  fs w' !! dest = fs w !! dest.
Proof.
  intros Hsome. rewrite (download_file_present url dest w Hsome).
  assert (E : events_since w (log (EvExists dest) w) = [EvExists dest])
    by (apply events_since_app; reflexivity).
  rewrite E. repeat split.
Qed.

(** C3. When nothing sits at the destination, [download_file] makes
    exactly one GET, to the given URL, however the run ends; and when
    the GET is answered, the body is read and the file is written, the
    destination then holds the body, byte for byte, and nothing else
    on the disk changed. *)
Theorem download_file_missing_fetches (url dest : string) (w : World) :
  fs w !! dest = None ->
  let '(r, w') := download_file url dest w in
  gets (events_since w w') = [url] /\
  forall (resp : ClientResponse) (data : list byte),
    remote w url = GetResponds resp ->
    resp_read resp = Ok data ->
    storage w dest data = WriteDone ->
    r = Ok tt /\
    fs w' = <[dest := data]> (fs w) /\
    fs w' !! dest = Some data /\
    events_since w w' = [EvExists dest; EvGet url; EvWrite dest data].
Proof.
  intros Hnone. rewrite (download_file_absent url dest w Hnone). simpl.
  assert (Hgets : forall w1 tail,
            trace w1 = trace w ++ EvExists dest :: EvGet url :: tail ->
            gets tail = [] -> gets (events_since w w1) = [url]).
  { intros w1 tail E G. rewrite (events_since_app _ _ _ E). simpl.
    rewrite G. reflexivity. }
  destruct (remote w url) as [e|r0] eqn:Hrem.
  - split; [|discriminate].
    apply (Hgets _ []); [|reflexivity].
    simpl. rewrite <- app_assoc. reflexivity.
  - destruct (resp_read r0) as [data0|e] eqn:Hbody.
    + unfold open_wb_write. simpl.
      destruct (storage w dest data0) as [|e|n e] eqn:Hsto0; simpl.
      * split.
        -- apply (Hgets _ [EvWrite dest data0]); [|reflexivity].
           simpl. rewrite <- !app_assoc. reflexivity.
        -- intros resp data [= <-] Hread _.
           assert (data = data0) by congruence. subst data.
           repeat split.
           ++ simpl. apply lookup_insert_eq.
           ++ apply events_since_app. simpl. rewrite <- !app_assoc. reflexivity.
      * split.
        -- apply (Hgets _ []); [|reflexivity].
           simpl. rewrite <- !app_assoc. reflexivity.
        -- intros resp data [= <-] Hread Hsto.
           assert (data = data0) by congruence. subst data. congruence.
      * split.
        -- apply (Hgets _ [EvWrite dest (take n data0)]); [|reflexivity].
           simpl. rewrite <- !app_assoc. reflexivity.
        -- intros resp data [= <-] Hread Hsto.
           assert (data = data0) by congruence. subst data. congruence.
    + split.
      * apply (Hgets _ []); [|reflexivity].
        simpl. rewrite <- !app_assoc. reflexivity.
      * intros resp data [= <-] Hread. congruence.
Qed.

Lemma download_file_existing_noop_witness :
  let w := Demo.world {[ "app/driver"%string := Demo.model_file ]} Demo.unreachable in
  is_Some (fs w !! "app/driver"%string) /\
  (download_file "https://example.org/driver" "app/driver" w).1 = Ok tt /\
  gets (events_since w (download_file "https://example.org/driver" "app/driver" w).2) = [] /\
  fs (download_file "https://example.org/driver" "app/driver" w).2 !! "app/driver"%string
    = Some Demo.model_file.
Proof.
  intros w.
  assert (Hsome : is_Some (fs w !! "app/driver"%string)) by (vm_compute; eauto).
  split; [exact Hsome|].
  pose proof (download_file_existing_noop "https://example.org/driver" "app/driver" w Hsome) as P.
  destruct (download_file "https://example.org/driver" "app/driver" w) as [r w'].
  destruct P as (Hr & _ & Hg & _ & Hf).
  simpl. rewrite Hf. repeat split; [exact Hr|exact Hg].
Defined.

Lemma download_file_missing_fetches_witness :
  let w := Demo.world ∅ (Demo.answering 200 Demo.model_file) in
  fs w !! "app/driver"%string = None /\
  (download_file "https://example.org/driver" "app/driver" w).1 = Ok tt /\
  gets (events_since w (download_file "https://example.org/driver" "app/driver" w).2)
    = ["https://example.org/driver"%string] /\
  fs (download_file "https://example.org/driver" "app/driver" w).2 !! "app/driver"%string
    = Some Demo.model_file.
Proof.
  intros w.
  assert (Hnone : fs w !! "app/driver"%string = None) by reflexivity.
  split; [exact Hnone|].
  pose proof (download_file_missing_fetches "https://example.org/driver" "app/driver" w Hnone) as P.
  destruct (download_file "https://example.org/driver" "app/driver" w) as [r w'].
  destruct P as (Hg & P).
  destruct (P (MkClientResponse 200 (Ok Demo.model_file)) Demo.model_file
              eq_refl eq_refl eq_refl) as (Hr & _ & Hf & _).
  simpl. repeat split; [exact Hr|exact Hg|exact Hf].
Defined.

Lemma later_runs_keep (url dest : string) (page : list byte)
  (envs : list ((string -> GetOutcome) * (string -> list byte -> WriteOutcome))) :
  forall w : World,
    fs w !! dest = Some page ->
    exists evs : list Event,
      trace (later_runs url dest envs w).2 = trace w ++ evs /\
      gets evs = [] /\
      fs (later_runs url dest envs w).2 = fs w /\
      Forall (fun r => r = Ok tt) (later_runs url dest envs w).1.
Proof.
  induction envs as [|env rest IH]; intros w Hpage.
  - exists []. simpl. rewrite app_nil_r. repeat split. constructor.
  - simpl.
    rewrite (download_file_present url dest (later env w))
      by (simpl; rewrite Hpage; eauto).
    destruct (IH (log (EvExists dest) (later env w)) Hpage)
      as (evs & Htr & Hg & Hfs & Hok).
    destruct (later_runs url dest rest (log (EvExists dest) (later env w)))
      as [rs w2].
    simpl in *. exists (EvExists dest :: evs).
    rewrite Htr, <- app_assoc. repeat split; try assumption.
    constructor; [reflexivity|assumption].
Qed.

(** C10. [download_file] never looks at the status of the response:
    whatever the status, the body that was read is written to the
    destination and the call returns normally.  From then on the file is
    there, so every later run, whatever the network has become, skips
    the download and leaves that body in place. *)
Theorem download_file_ignores_status (url dest : string) (w : World)
  (status : Z) (page : list byte) :
  fs w !! dest = None ->
  remote w url = GetResponds (MkClientResponse status (Ok page)) ->
  storage w dest page = WriteDone ->
  let '(r, w1) := download_file url dest w in
  r = Ok tt /\
  fs w1 !! dest = Some page /\
  forall envs : list ((string -> GetOutcome) * (string -> list byte -> WriteOutcome)),
    let '(rs, w2) := later_runs url dest envs w1 in
    Forall (fun r => r = Ok tt) rs /\
    gets (events_since w1 w2) = [] /\
    fs w2 !! dest = Some page.
Proof.
  intros Hnone Hrem Hsto.
  rewrite (download_file_written url dest w _ page Hnone Hrem eq_refl Hsto).
  set (w1 := log (EvWrite dest page)
               (set_file dest page (log (EvGet url) (log (EvExists dest) w)))).
  assert (Hf : fs w1 !! dest = Some page) by apply lookup_insert_eq.
  clearbody w1.
  repeat split; [exact Hf|].
  intros envs.
  destruct (later_runs_keep url dest page envs w1 Hf) as (evs & Htr & Hg & Hfs & Hok).
  destruct (later_runs url dest envs w1) as [rs w2]. cbn [fst snd] in Htr, Hfs, Hok.
  rewrite (events_since_app _ _ _ Htr), Hfs. repeat split; assumption.
Qed.

Lemma download_file_ignores_status_witness :
  let w := Demo.world ∅ (Demo.answering 404 Demo.error_page) in
  (download_file "https://example.org/driver" "app/driver" w).1 = Ok tt /\
  fs (download_file "https://example.org/driver" "app/driver" w).2 !! "app/driver"%string
    = Some Demo.error_page /\
  fs (later_runs "https://example.org/driver" "app/driver"
        [(Demo.answering 200 Demo.model_file, Demo.sound_disk)]
        (download_file "https://example.org/driver" "app/driver" w).2).2
     !! "app/driver"%string = Some Demo.error_page.
Proof.
  intros w.
  pose proof (download_file_ignores_status "https://example.org/driver" "app/driver" w
                404 Demo.error_page eq_refl eq_refl eq_refl) as P.
  destruct (download_file "https://example.org/driver" "app/driver" w) as [r w1].
  destruct P as (Hr & Hf & P). cbn [fst snd].
  specialize (P [(Demo.answering 200 Demo.model_file, Demo.sound_disk)]).
  destruct (later_runs "https://example.org/driver" "app/driver"
              [(Demo.answering 200 Demo.model_file, Demo.sound_disk)] w1) as [rs w2].
  destruct P as (_ & _ & Hf2).
  cbn [fst snd]. repeat split; assumption.
Defined.

(** ** Substring search *)




Lemma list_in_In (x : string) (xs : list string) :
  list_in x xs = true <-> In x xs.
Proof.
  unfold list_in. rewrite existsb_exists. split.
  - intros (y & Hy & E). apply String.eqb_eq in E. subst. exact Hy.
  - intros H. exists x. split; [exact H|apply String.eqb_refl].
Qed.

Lemma append_length (a b : string) :
  String.length (a +:+ b) = (String.length a + String.length b)%nat.
Proof. induction a as [|c a IH]; simpl; [reflexivity|]. rewrite IH. reflexivity. Qed.

(** The script is not itself called [serve]. *)
Lemma script_name_not_serve (dir : string) :
  String.eqb "serve" (dir +:+ "server.py") = false.
Proof.
  apply String.eqb_neq. intros E.
  apply (f_equal String.length) in E. rewrite append_length in E.
  simpl in E. lia.
Qed.

Section ServerProperties.

Context `{Lib : Libraries}.

(** ** setup_learner *)



(** A first argument that is a number cannot be searched: the test of
    the [except] clause raises a [TypeError], and that is what comes
    out instead of the error of the load. *)
Lemma on_load_error_number (e : Exn) (w : World) (n : Z) (others : list Value) :
  isinstance e "RuntimeError" = true ->
  exn_args e = VInt n :: others ->
  on_load_error e w
    = (Raise (TypeError [VStr "argument of type 'int' is not iterable"]), w).
Proof.
  intros Hcls Hargs. unfold on_load_error, cpu_only_test, bind, lift.
  rewrite Hcls, Hargs. reflexivity.
Qed.


(** ** The two routes *)

Lemma respond_analyze (g : Globals) (learn : Learner) (request : Request) (w : World) :
  req_method request = "POST"%string ->
  req_path request = "/analyze"%string ->
  respond (app g learn) request w = respond (analyze g learn) request w.
Proof. intros Hm Hp. unfold respond, app. rewrite Hm, Hp. reflexivity. Qed.

Lemma respond_homepage (g : Globals) (learn : Learner) (request : Request) (w : World) :
  req_method request = "GET"%string ->
  req_path request = "/"%string ->
  respond (app g learn) request w = respond (homepage g) request w.
Proof. intros Hm Hp. unfold respond, app. rewrite Hm, Hp. reflexivity. Qed.

(** C1. A POST to [/analyze] whose field [file] is an upload that
    [open_image] decodes is answered with status 200 and the JSON object
    whose single field [result] holds [str] of the first component of
    what the loaded model predicts for that image; nothing else
    happens. *)
Theorem analyze_valid_image (g : Globals) (learn : Learner) (request : Request)
  (w : World) (filename : string) (data : list byte) (img : Image) :
  req_method request = "POST"%string ->
  req_path request = "/analyze"%string ->
  req_form request !! "file"%string = Some (UploadFile filename data) ->
  open_image data = Ok img ->
  let label := category_str (predict learn img).1.1 in
  let answer := JObject [("result"%string, JString label)] in
  analyze g learn request w = (Ok (JSONResponse answer), w) /\
  respond (app g learn) request w
    = (MkResponse 200 "application/json" (JsonBody answer), w).
Proof.
  intros Hm Hp Hform Himg label answer.
  assert (E : analyze g learn request w = (Ok (JSONResponse answer), w)).
  { unfold analyze, bind, ret, form_getitem, lift. rewrite Hform.
    cbn beta iota delta [field_read ret]. rewrite Himg. reflexivity. }
  split; [exact E|].
  rewrite (respond_analyze g learn request w Hm Hp).
  unfold respond. rewrite E. reflexivity.
Qed.

(** C7. A POST to [/analyze] whose field [file] is an upload that
    [open_image] refuses: the decode step raises inside the handler and
    the client gets the framework's server error, whose status is not
    200. *)
Theorem analyze_not_an_image (g : Globals) (learn : Learner) (request : Request)
  (w : World) (filename : string) (data : list byte) (e : Exn) :
  req_method request = "POST"%string ->
  req_path request = "/analyze"%string ->
  req_form request !! "file"%string = Some (UploadFile filename data) ->
  open_image data = Raise e ->
  analyze g learn request w = (Raise e, w) /\
  respond (app g learn) request w = (server_error, w) /\
  status_code (respond (app g learn) request w).1 <> 200.
Proof.
  intros Hm Hp Hform Himg.
  assert (E : analyze g learn request w = (Raise e, w)).
  { unfold analyze, bind, ret, form_getitem, lift. rewrite Hform.
    cbn beta iota delta [field_read ret]. rewrite Himg. reflexivity. }
  rewrite (respond_analyze g learn request w Hm Hp).
  unfold respond. rewrite E. repeat split. discriminate.
Qed.

(** C8. The list [classes] is dead configuration: the handler of
    [/analyze], the answer the client gets and the whole run of the
    script are the same for any two values of it. *)
Theorem classes_never_consulted (g : Globals) (cs1 cs2 : list string)
  (learn : Learner) (request : Request) (name : string) (argv : list string)
  (incoming : list Incoming) (w : World) :
  analyze (with_classes cs1 g) learn request w
    = analyze (with_classes cs2 g) learn request w /\
  respond (app (with_classes cs1 g) learn) request w
    = respond (app (with_classes cs2 g) learn) request w /\
  server_py (with_classes cs1 g) name argv incoming w
    = server_py (with_classes cs2 g) name argv incoming w.
Proof. repeat split. Qed.

Lemma homepage_ok (g : Globals) (request : Request) (w : World)
  (content : list byte) (html : string) :
  let html_file := joinpath (joinpath (path g) "view") "index.html" in
  fs w !! html_file = Some content ->
  text_decode content = Ok html ->
  homepage g request w = (Ok (HTMLResponse html), log (EvRead html_file) w).
Proof.
  intros html_file Hfile Hdec. unfold homepage, bind, open_read.
  fold html_file. rewrite Hfile, Hdec. reflexivity.
Qed.

Example utf8_valid_cases :
  utf8_valid [xc3; xa9] = true /\              (* U+00E9 *)
  utf8_valid [xe2; x82; xac] = true /\         (* U+20AC *)
  utf8_valid [xf0; x9f; x98; x80] = true /\    (* U+1F600 *)
  utf8_valid [xc0; x80] = false /\             (* overlong *)
  utf8_valid [xed; xa0; x80] = false /\        (* surrogate *)
  utf8_valid [xf4; x90; x80; x80] = false /\   (* above U+10FFFF *)
  utf8_valid [x80] = false /\                  (* stray continuation *)
  utf8_valid [xe2; x82] = false.               (* cut short *)
Proof. repeat split. Qed.

Example universal_newlines_cases :
  universal_newlines [x61; x0d; x0a; x62] = [x61; x0a; x62] /\
  universal_newlines [x0d; x0d; x0a; x0a] = [x0a; x0a; x0a] /\
  universal_newlines [x61; x0d] = [x61; x0a].
Proof. repeat split. Qed.

Lemma universal_newlines_no_cr (content : list byte) :
  ~ In x0d content -> universal_newlines content = content.
Proof.
  induction content as [|b rest IH]; intros Hno; [reflexivity|].
  assert (Hrest : universal_newlines rest = rest).
  { apply IH. intros H. apply Hno. right. exact H. }
  destruct b; try (cbn [universal_newlines]; rewrite Hrest; reflexivity).
  exfalso. apply Hno. left. reflexivity.
Qed.

Lemma text_decode_valid (content : list byte) :
  utf8_valid content = true ->
  text_decode content = Ok (string_of_list_byte (universal_newlines content)).
Proof. intros Hvalid. unfold text_decode. rewrite Hvalid. reflexivity. Qed.

(** C9. A GET of [/] opens and reads the HTML file while the request
    is handled.  When the file is well-formed UTF-8 the answer has
    status 200, and the bytes of its body are the bytes of the file
    with every CR LF and every lone CR turned into LF, as a text-mode
    read delivers them; they are the bytes of the file as they are when
    the file has no CR.  Nothing is kept from one request to the next:
    if the file is replaced after the answer, the same request is
    answered from the new file. *)
Theorem homepage_reads_file (g : Globals) (learn : Learner) (request : Request)
  (w : World) (content : list byte) :
  req_method request = "GET"%string ->
  req_path request = "/"%string ->
  let html_file := joinpath (joinpath (path g) "view") "index.html" in
  fs w !! html_file = Some content ->
  utf8_valid content = true ->
  let page := fun data : list byte =>
    MkResponse 200 "text/html"
      (TextBody (string_of_list_byte (universal_newlines data))) in
  respond (app g learn) request w = (page content, log (EvRead html_file) w) /\
  encode_utf8 (string_of_list_byte (universal_newlines content))
    = universal_newlines content /\
  (~ In x0d content ->
   encode_utf8 (string_of_list_byte (universal_newlines content)) = content) /\
  forall content' : list byte,
    utf8_valid content' = true ->
    events_since w
      (serve (app g learn)
         [Arrives request; Replaces html_file content'; Arrives request] w)
    = [ EvRead html_file; EvServe request (page content);
        EvRead html_file; EvServe request (page content') ].
Proof.
  intros Hm Hp html_file Hfile Hvalid page.
  assert (R : forall w0 c0,
            fs w0 !! html_file = Some c0 -> utf8_valid c0 = true ->
            respond (app g learn) request w0
              = (page c0, log (EvRead html_file) w0)).
  { intros w0 c0 Hf Hv. rewrite (respond_homepage g learn request w0 Hm Hp).
    unfold respond.
    rewrite (homepage_ok g request w0 c0 _ Hf (text_decode_valid c0 Hv)).
    reflexivity. }
  split; [exact (R w content Hfile Hvalid)|].
  split; [apply list_byte_of_string_of_list_byte|].
  split.
  { intros Hno. unfold encode_utf8.
    rewrite list_byte_of_string_of_list_byte. apply universal_newlines_no_cr. exact Hno. }
  intros content' Hvalid'.
  apply events_since_app.
  cbn [serve]. rewrite (R w content Hfile Hvalid).
  erewrite (R _ content'); [|apply lookup_insert_eq|exact Hvalid'].
  simpl. rewrite <- !app_assoc. reflexivity.
Qed.

(** ** The order of events in a run of the script *)

Lemma download_file_events (url dest : string) (w : World) :
  exists fetch : list Event,
    trace (download_file url dest w).2 = trace w ++ fetch /\
    fetch_run url dest fetch.
Proof.
  destruct (fs w !! dest) as [content|] eqn:Hdest.
  - rewrite download_file_present by eauto.
    exists [EvExists dest]. split; [reflexivity|constructor].
  - rewrite download_file_absent by exact Hdest. cbn zeta.
    assert (Hno : exists fetch,
               trace (log (EvGet url) (log (EvExists dest) w)) = trace w ++ fetch /\
               fetch_run url dest fetch).
    { exists [EvExists dest; EvGet url]. simpl. rewrite <- app_assoc.
      split; [reflexivity|constructor]. }
    destruct (remote w url) as [e|r]; [exact Hno|].
    destruct (resp_read r) as [data|e]; [|exact Hno].
    unfold open_wb_write. cbn [storage log].
    destruct (storage w dest data) as [|e|n e]; [|exact Hno|].
    + exists [EvExists dest; EvGet url; EvWrite dest data]. simpl.
      rewrite <- !app_assoc. split; [reflexivity|constructor].
    + exists [EvExists dest; EvGet url; EvWrite dest (take n data)]. simpl.
      rewrite <- !app_assoc. split; [reflexivity|constructor].
Qed.

Lemma fetch_run_is_fetch (url dest : string) (evs : list Event) :
  fetch_run url dest evs ->
  forallb is_fetch evs = true /\ loads evs = 0%nat /\
  existsb is_listen evs = false /\ existsb is_serving evs = false.
Proof. intros []; repeat split. Qed.

Lemma serving_only (evs : list Event) :
  forallb is_serving evs = true ->
  loads evs = 0%nat /\ existsb is_listen evs = false /\ existsb is_fetch evs = false.
Proof.
  induction evs as [|ev evs IH]; [repeat split|].
  simpl. intros H. apply andb_true_iff in H as [Hev Hevs].
  destruct (IH Hevs) as (Hl & Hli & Hf).
  destruct ev; try discriminate; simpl; repeat split; assumption.
Qed.

(** What [setup_learner] adds to the trace: the events of the fetch,
    then at most the load and the print of the translated error. *)
Lemma setup_learner_events (g : Globals) (w : World) :
  exists fetch after : list Event,
    trace (setup_learner g w).2 = trace w ++ fetch ++ after /\
    fetch_run (export_file_url g) (joinpath (path g) (export_file_name g)) fetch /\
    match (setup_learner g w).1 with
    | Ok _ => after = [EvLoad (path g) (export_file_name g)]
    | Raise _ =>
        after = [] \/
        after = [EvLoad (path g) (export_file_name g)] \/
        exists e0 : Exn, after = [EvLoad (path g) (export_file_name g); EvPrint e0]
    end.
Proof.
  destruct (download_file_events (export_file_url g)
              (joinpath (path g) (export_file_name g)) w) as (fetch & Htr & Hrun).
  exists fetch. unfold setup_learner, bind.
  destruct (download_file (export_file_url g)
              (joinpath (path g) (export_file_name g)) w) as [[[]|e] w1];
    cbn [fst snd] in Htr.
  - unfold try_except, load_learner_io.
    destruct (load_learner (fs w1) (path g) (export_file_name g)) as [learn|e].
    + exists [EvLoad (path g) (export_file_name g)]. simpl.
      rewrite Htr, <- app_assoc. repeat split. exact Hrun.
    + unfold on_load_error, bind, lift.
      destruct (isinstance e "RuntimeError");
        [destruct (cpu_only_test e) as [[|]|te]|].
      * exists [EvLoad (path g) (export_file_name g); EvPrint e]. simpl.
        rewrite Htr, <- !app_assoc. repeat split; [exact Hrun|]. right. right. eauto.
      * exists [EvLoad (path g) (export_file_name g)]. simpl.
        rewrite Htr, <- !app_assoc. repeat split; [exact Hrun|]. right. left. reflexivity.
      * exists [EvLoad (path g) (export_file_name g)]. simpl.
        rewrite Htr, <- !app_assoc. repeat split; [exact Hrun|]. right. left. reflexivity.
      * exists [EvLoad (path g) (export_file_name g)]. simpl.
        rewrite Htr, <- !app_assoc. repeat split; [exact Hrun|]. right. left. reflexivity.
  - exists []. simpl. rewrite Htr, app_nil_r. repeat split; [exact Hrun|].
    left. reflexivity.
Qed.

Lemma analyze_trace (g : Globals) (learn : Learner) (request : Request) (w : World) :
  (analyze g learn request w).2 = w.
Proof.
  unfold analyze, bind, ret, form_getitem, lift.
  destruct (req_form request !! "file"%string) as [[s|fname data]|]; try reflexivity.
  cbn beta iota delta [field_read ret].
  destruct (open_image data); reflexivity.
Qed.

Lemma respond_events (g : Globals) (learn : Learner) (request : Request) (w : World) :
  exists evs : list Event,
    trace (respond (app g learn) request w).2 = trace w ++ evs /\
    forallb is_serving evs = true.
Proof.
  unfold respond, app.
  destruct (String.eqb (req_path request) "/" && String.eqb (req_method request) "GET").
  - unfold homepage, bind, open_read.
    destruct (fs w !! joinpath (joinpath (path g) "view") "index.html") as [content|].
    + destruct (text_decode content);
        exists [EvRead (joinpath (joinpath (path g) "view") "index.html")];
        split; reflexivity.
    + exists []. simpl. rewrite app_nil_r. split; reflexivity.
  - destruct (String.eqb (req_path request) "/analyze"
              && list_in (req_method request) ["POST"%string]).
    + pose proof (analyze_trace g learn request w) as Hw.
      destruct (analyze g learn request w) as [[resp|e] w']; simpl in Hw; subst w';
        exists []; simpl; rewrite app_nil_r; split; reflexivity.
    + exists []. simpl. rewrite app_nil_r. split; reflexivity.
Qed.

Lemma serve_events (g : Globals) (learn : Learner) (incoming : list Incoming) :
  forall w : World,
    exists evs : list Event,
      trace (serve (app g learn) incoming w) = trace w ++ evs /\
      forallb is_serving evs = true.
Proof.
  induction incoming as [|[request|p content] rest IH]; intros w.
  - exists []. simpl. rewrite app_nil_r. split; reflexivity.
  - cbn [serve].
    destruct (respond_events g learn request w) as (evs1 & Htr1 & Hs1).
    destruct (respond (app g learn) request w) as [response w1]. cbn [snd] in Htr1.
    destruct (IH (log (EvServe request response) w1)) as (evs2 & Htr2 & Hs2).
    exists (evs1 ++ EvServe request response :: evs2).
    rewrite Htr2. cbn [log trace]. rewrite Htr1, <- !app_assoc. split; [reflexivity|].
    rewrite forallb_app, Hs1. simpl. exact Hs2.
  - cbn [serve].
    destruct (IH (set_file p content w)) as (evs & Htr & Hs).
    exists evs. split; [exact Htr|exact Hs].
Qed.

(** C5. In every run of the script the new events are those of the
    fetch followed by the rest, and the load is the first event of the
    rest: the fetch is over before the load begins.  The artifact is
    loaded at most once.  When [setup_learner] returns, the rest is the
    load alone, or the load, then the start of the listener, then only
    the handling of requests.  When [setup_learner] raises, the script
    ends with that exception and the rest has no listener in it. *)
Theorem startup_sequence (g : Globals) (name : string) (argv : list string)
  (incoming : list Incoming) (w : World) :
  let load := EvLoad (path g) (export_file_name g) in
  let '(r, w') := server_py g name argv incoming w in
  exists fetch after : list Event,
    events_since w w' = fetch ++ after /\
    fetch_run (export_file_url g) (joinpath (path g) (export_file_name g)) fetch /\
    (loads (events_since w w') <= 1)%nat /\
    match setup_learner g w with
    | (Ok _, _) =>
        r = Ok tt /\
        (after = [load] \/
         exists served : list Event,
           after = load :: EvListen "0.0.0.0" 5000 :: served /\
           forallb is_serving served = true)
    | (Raise e, _) =>
        r = Raise e /\
        (after = [] \/ after = [load] \/ exists e0 : Exn, after = [load; EvPrint e0])
    end.
Proof.
  intros load.
  destruct (setup_learner_events g w) as (fetch & after0 & Htr & Hrun & Hshape).
  destruct (fetch_run_is_fetch _ _ _ Hrun) as (_ & Hl0 & _).
  unfold server_py, bind.
  destruct (setup_learner g w) as [[learn|e] w1]; cbn [fst snd] in Htr, Hshape.
  - subst after0.
    assert (Hquiet : exists fetch0 after : list Event,
              events_since w w1 = fetch0 ++ after /\
              fetch_run (export_file_url g)
                (joinpath (path g) (export_file_name g)) fetch0 /\
              (loads (events_since w w1) <= 1)%nat /\
              Ok tt = Ok tt /\
              (after = [load] \/
               exists served : list Event,
                 after = load :: EvListen "0.0.0.0" 5000 :: served /\
                 forallb is_serving served = true)).
    { exists fetch, [load]. rewrite (events_since_app _ _ _ Htr), loads_app, Hl0.
      repeat split; [exact Hrun|simpl; lia|left; reflexivity]. }
    destruct (String.eqb name "__main__"); [|exact Hquiet].
    destruct (list_in "serve" argv); [|exact Hquiet].
    unfold uvicorn_run.
    destruct (serve_events g learn incoming (log (EvListen "0.0.0.0" 5000) w1))
      as (served & Hs & Hserving).
    destruct (serving_only _ Hserving) as (Hl1 & _).
    exists fetch, (load :: EvListen "0.0.0.0" 5000 :: served).
    assert (E : events_since w
                  (serve (app g learn) incoming (log (EvListen "0.0.0.0" 5000) w1))
                = fetch ++ load :: EvListen "0.0.0.0" 5000 :: served).
    { apply events_since_app. rewrite Hs. cbn [log trace]. rewrite Htr.
      rewrite <- !app_assoc. reflexivity. }
    rewrite E, loads_app, Hl0. cbn [loads]. rewrite Hl1.
    repeat split; [exact Hrun|simpl; lia|]. right. exists served. split; [reflexivity|exact Hserving].
  - exists fetch, after0. rewrite (events_since_app _ _ _ Htr), loads_app, Hl0.
    repeat split; [exact Hrun| |exact Hshape].
    destruct Hshape as [->|[->|[e0 ->]]]; simpl; lia.
Qed.

(** C6. Started from the command line as [<dir>server.py args...]:
    when [serve] is among the arguments and the setup returns, the
    script goes on to start the listener on 0.0.0.0:5000 in the world
    the setup left; when [serve] is not among them, the script does the
    setup and nothing more: it ends in the world the setup left, with
    the outcome of the setup, having started no listener and handled no
    request. *)
Theorem serve_argument (g : Globals) (dir : string) (args : list string)
  (incoming : list Incoming) (w : World) :
  let argv := (dir +:+ "server.py")%string :: args in
  (In "serve"%string args ->
   forall (learn : Learner) (w1 : World),
     setup_learner g w = (Ok learn, w1) ->
     server_py g "__main__" argv incoming w
       = (Ok tt, serve (app g learn) incoming (log (EvListen "0.0.0.0" 5000) w1))) /\
  (~ In "serve"%string args ->
   let '(r, w') := server_py g "__main__" argv incoming w in
   let '(r0, w0) := setup_learner g w in
   w' = w0 /\
   r = match r0 with Ok _ => Ok tt | Raise e => Raise e end /\
   existsb is_listen (events_since w w') = false /\
   existsb is_serving (events_since w w') = false).
Proof.
  intros argv. split.
  - intros Hin learn w1 Hsetup.
    assert (Hargv : list_in "serve" argv = true).
    { apply list_in_In. right. exact Hin. }
    unfold server_py, bind. rewrite Hsetup, String.eqb_refl, Hargv. reflexivity.
  - intros Hnot.
    assert (Hargv : list_in "serve" argv = false).
    { destruct (list_in "serve" argv) eqn:E; [|reflexivity].
      apply list_in_In in E as [E|E]; [|contradiction].
      pose proof (script_name_not_serve dir) as Hne.
      apply String.eqb_neq in Hne. congruence. }
    destruct (setup_learner_events g w) as (fetch & after & Htr & Hrun & Hshape).
    destruct (fetch_run_is_fetch _ _ _ Hrun) as (_ & _ & Hli & Hse).
    unfold server_py, bind. rewrite String.eqb_refl, Hargv.
    destruct (setup_learner g w) as [[learn|e] w1]; cbn [fst snd] in Htr, Hshape;
      cbn beta iota zeta delta [ret];
      rewrite (events_since_app _ _ _ Htr), !existsb_app, Hli, Hse.
    + subst after. repeat split.
    + destruct Hshape as [->|[->|[e0 ->]]]; repeat split.
Qed.

End ServerProperties.

(** * Further properties *)

(** ** download_file beyond the two normal paths *)

Lemma download_file_fs (url dest : string) (w : World) :
  fs (download_file url dest w).2 = fs w \/
  exists data : list byte, fs (download_file url dest w).2 = <[dest := data]> (fs w).
Proof.
  destruct (fs w !! dest) as [content|] eqn:Hdest.
  - rewrite download_file_present by eauto. left. reflexivity.
  - rewrite download_file_absent by exact Hdest. cbn zeta.
    destruct (remote w url) as [e|r]; [left; reflexivity|].
    destruct (resp_read r) as [data|e]; [|left; reflexivity].
    unfold open_wb_write. cbn [storage log].
    destruct (storage w dest data) as [|e|n e];
      [right; eexists; reflexivity|left; reflexivity|right; eexists; reflexivity].
Qed.

(** X1. When [download_file] returns normally the destination exists,
    and from then on every call for that destination, whatever the URL,
    the network and the storage have become, returns after the
    existence test alone. *)
Theorem download_file_ensures_file (url dest : string) (w w1 : World) :
  download_file url dest w = (Ok tt, w1) ->
  is_Some (fs w1 !! dest) /\
  forall (env : (string -> GetOutcome) * (string -> list byte -> WriteOutcome))
         (url' : string),
    download_file url' dest (later env w1)
      = (Ok tt, log (EvExists dest) (later env w1)).
Proof.
  intros Hrun.
  assert (Hsome : is_Some (fs w1 !! dest)).
  { destruct (fs w !! dest) as [content|] eqn:Hdest.
    - rewrite download_file_present in Hrun by eauto.
      injection Hrun as <-. cbn [log fs]. rewrite Hdest. eauto.
    - rewrite download_file_absent in Hrun by exact Hdest. cbn zeta in Hrun.
      destruct (remote w url) as [e|r]; [discriminate|].
      destruct (resp_read r) as [data|e]; [|discriminate].
      unfold open_wb_write in Hrun. cbn [storage log] in Hrun.
      destruct (storage w dest data) as [|e|n e]; try discriminate.
      injection Hrun as <-. cbn [log set_file fs].
      rewrite lookup_insert_eq. eauto. }
  split; [exact Hsome|].
  intros env url'. apply download_file_present. exact Hsome.
Qed.

(** X2. Whatever happens, [download_file] leaves every file other
    than the destination as it was. *)
Theorem download_file_other_files (url dest p : string) (w : World) :
  p <> dest ->
  fs (download_file url dest w).2 !! p = fs w !! p.
Proof.
  intros Hne.
  destruct (download_file_fs url dest w) as [->|[data ->]]; [reflexivity|].
  apply lookup_insert_ne. congruence.
Qed.

(** X3. With the destination missing, a GET that fails, a body that
    cannot be read or a destination that cannot be opened each make
    [download_file] raise that very exception after its one GET, and
    the destination is still missing. *)
Theorem download_file_failure_writes_nothing (url dest : string) (w : World) (e : Exn) :
  fs w !! dest = None ->
  (remote w url = GetFails e \/
   exists r : ClientResponse,
     remote w url = GetResponds r /\
     (resp_read r = Raise e \/
      exists data : list byte,
        resp_read r = Ok data /\ storage w dest data = OpenFails e)) ->
  download_file url dest w = (Raise e, log (EvGet url) (log (EvExists dest) w)) /\
  fs (download_file url dest w).2 = fs w /\
  fs (download_file url dest w).2 !! dest = None.
Proof.
  intros Hnone Hfail.
  assert (E : download_file url dest w
              = (Raise e, log (EvGet url) (log (EvExists dest) w))).
  { rewrite (download_file_absent url dest w Hnone). cbn zeta.
    destruct Hfail as [->|(r & -> & [->|(data & -> & Hsto)])]; try reflexivity.
    unfold open_wb_write. cbn [storage log]. rewrite Hsto. reflexivity. }
  rewrite E. repeat split. exact Hnone.
Qed.

(** X4. A write that breaks off after [n] bytes makes [download_file]
    raise, but the destination is left holding those [n] bytes; every
    later call then finds a file and skips the download, so the
    truncated artifact stays. *)
Theorem download_file_truncated_file_kept (url dest : string) (w : World)
  (r : ClientResponse) (data : list byte) (n : nat) (e : Exn) :
  fs w !! dest = None ->
  remote w url = GetResponds r ->
  resp_read r = Ok data ->
  storage w dest data = WriteFails n e ->
  (download_file url dest w).1 = Raise e /\
  fs (download_file url dest w).2 !! dest = Some (take n data) /\
  forall (env : (string -> GetOutcome) * (string -> list byte -> WriteOutcome))
         (url' : string),
    let w1 := later env (download_file url dest w).2 in
    download_file url' dest w1 = (Ok tt, log (EvExists dest) w1) /\
    fs (download_file url' dest w1).2 !! dest = Some (take n data).
Proof.
  intros Hnone Hrem Hread Hsto.
  rewrite (download_file_absent url dest w Hnone), Hrem, Hread. cbn zeta.
  unfold open_wb_write. cbn [storage log]. rewrite Hsto. cbn [fst snd].
  assert (Hf : fs (log (EvWrite dest (take n data))
                     (set_file dest (take n data)
                        (log (EvGet url) (log (EvExists dest) w)))) !! dest
               = Some (take n data)) by apply lookup_insert_eq.
  split; [reflexivity|]. split; [exact Hf|].
  intros env url'. split.
  - apply download_file_present. cbn [later fs]. rewrite Hf. eauto.
  - rewrite download_file_present by (cbn [later fs]; rewrite Hf; eauto).
    exact Hf.
Qed.

Lemma served_requests_app (xs ys : list Event) :
  served_requests (xs ++ ys) = served_requests xs ++ served_requests ys.
Proof.
  induction xs as [|ev xs IH]; [reflexivity|].
  destruct ev; simpl; rewrite IH; reflexivity.
Qed.

Lemma serving_gets (evs : list Event) :
  forallb is_serving evs = true -> gets evs = [].
Proof.
  induction evs as [|ev evs IH]; [reflexivity|].
  simpl. intros H. apply andb_true_iff in H as [Hev Hevs].
  destruct ev; try discriminate; simpl; exact (IH Hevs).
Qed.

Lemma replaced_keeps (incoming : list Incoming) (p : string) :
  forall files : gmap string (list byte),
    is_Some (files !! p) -> is_Some (replaced incoming files !! p).
Proof.
  induction incoming as [|[request|q content] rest IH]; intros files Hsome;
    cbn [replaced]; [exact Hsome|apply IH; exact Hsome|].
  apply IH. destruct (decide (q = p)) as [->|Hne].
  - rewrite lookup_insert_eq. eauto.
  - rewrite lookup_insert_ne by exact Hne. exact Hsome.
Qed.

Section MoreServerProperties.

Context `{Lib : Libraries}.

(** ** setup_learner from end to end *)

Lemma setup_learner_fs (g : Globals) (w : World) :
  fs (setup_learner g w).2
  = fs (download_file (export_file_url g)
          (joinpath (path g) (export_file_name g)) w).2.
Proof.
  unfold setup_learner, bind.
  destruct (download_file (export_file_url g)
              (joinpath (path g) (export_file_name g)) w) as [[[]|e] w1];
    [|reflexivity].
  unfold try_except, load_learner_io.
  destruct (load_learner (fs w1) (path g) (export_file_name g)) as [learn|e];
    [reflexivity|].
  unfold on_load_error, bind, lift.
  destruct (isinstance e "RuntimeError");
    [destruct (cpu_only_test e) as [[|]|te]|];
    reflexivity.
Qed.

(** X5. An exception of the download leaves [setup_learner] as it
    is, also when it is a [RuntimeError] that mentions a CPU-only
    machine: only the load is inside the [try].  The artifact is not
    loaded in such a run. *)
Theorem setup_learner_fetch_failure (g : Globals) (w w1 : World) (e : Exn) :
  download_file (export_file_url g) (joinpath (path g) (export_file_name g)) w
    = (Raise e, w1) ->
  setup_learner g w = (Raise e, w1) /\
  loads (events_since w w1) = 0%nat.
Proof.
  intros Hfetch. split.
  - unfold setup_learner, bind. rewrite Hfetch. reflexivity.
  - destruct (download_file_events (export_file_url g)
                (joinpath (path g) (export_file_name g)) w) as (fetch & Htr & Hrun).
    rewrite Hfetch in Htr. cbn [snd] in Htr.
    rewrite (events_since_app _ _ _ Htr).
    apply (fetch_run_is_fetch _ _ _ Hrun).
Qed.

(** X6. A first start: with the artifact missing, the GET answered
    and the file written, [load_learner] runs on a disk on which the
    destination holds the downloaded bytes, and its learner is what
    [setup_learner] returns after the four events exists, get, write,
    load. *)
Theorem setup_learner_cold_start (g : Globals) (w : World)
  (r : ClientResponse) (data : list byte) (learn : Learner) :
  let dest := joinpath (path g) (export_file_name g) in
  fs w !! dest = None ->
  remote w (export_file_url g) = GetResponds r ->
  resp_read r = Ok data ->
  storage w dest data = WriteDone ->
  load_learner (<[dest := data]> (fs w)) (path g) (export_file_name g) = Ok learn ->
  (setup_learner g w).1 = Ok learn /\
  fs (setup_learner g w).2 = <[dest := data]> (fs w) /\
  events_since w (setup_learner g w).2
    = [ EvExists dest; EvGet (export_file_url g); EvWrite dest data;
        EvLoad (path g) (export_file_name g) ].
Proof.
  intros dest Hnone Hrem Hread Hsto Hload. subst dest.
  unfold setup_learner, bind.
  rewrite (download_file_written _ _ w r data Hnone Hrem Hread Hsto).
  unfold try_except, load_learner_io. cbn [log set_file fs].
  rewrite Hload. cbn [fst snd log set_file fs].
  repeat split.
  apply events_since_app. cbn [log set_file trace].
  rewrite <- !app_assoc. reflexivity.
Qed.

(** ** The handler of /analyze on requests it cannot serve *)

(** X7. A form without a field [file] makes the handler raise
    [KeyError('file')] before anything is decoded, and the client gets
    the server error. *)
Theorem analyze_missing_file (g : Globals) (learn : Learner) (request : Request)
  (w : World) :
  req_form request !! "file"%string = None ->
  analyze g learn request w = (Raise (KeyError [VStr "file"]), w) /\
  respond (analyze g learn) request w = (server_error, w).
Proof.
  intros Hform.
  assert (E : analyze g learn request w = (Raise (KeyError [VStr "file"]), w)).
  { unfold analyze, bind, ret, form_getitem. rewrite Hform. reflexivity. }
  split; [exact E|]. unfold respond. rewrite E. reflexivity.
Qed.

(** X8. A field [file] sent as plain text, not as an upload, is a
    [str]: reading it raises [AttributeError], the image decoder is not
    reached whatever the text is, and the client gets the server
    error. *)
Theorem analyze_text_field (g : Globals) (learn : Learner) (request : Request)
  (w : World) (text : string) :
  req_form request !! "file"%string = Some (FormText text) ->
  (exists e : Exn,
     analyze g learn request w = (Raise e, w) /\
     exn_class e = "AttributeError"%string) /\
  respond (analyze g learn) request w = (server_error, w).
Proof.
  intros Hform.
  assert (E : analyze g learn request w
              = (Raise (AttributeError [VStr "'str' object has no attribute 'read'"]), w)).
  { unfold analyze, bind, ret, form_getitem. rewrite Hform. reflexivity. }
  split; [eexists; split; [exact E|reflexivity]|].
  unfold respond. rewrite E. reflexivity.
Qed.

(** X9. The status of the answer to a POST of [/analyze] is 200
    exactly when the field [file] is an upload that [open_image]
    decodes; in every other case the answer is the server error. *)
Theorem analyze_status (g : Globals) (learn : Learner) (request : Request) (w : World) :
  req_method request = "POST"%string ->
  req_path request = "/analyze"%string ->
  let response := (respond (app g learn) request w).1 in
  (status_code response = 200 <->
   exists (filename : string) (data : list byte) (img : Image),
     req_form request !! "file"%string = Some (UploadFile filename data) /\
     open_image data = Ok img) /\
  (status_code response <> 200 -> response = server_error).
Proof.
  intros Hm Hp. cbn zeta.
  rewrite (respond_analyze g learn request w Hm Hp).
  unfold respond, analyze, bind, ret, form_getitem, lift.
  destruct (req_form request !! "file"%string) as [[text|filename data]|] eqn:Hform;
    cbn beta iota delta [field_read ret fst].
  - split; [|reflexivity]. split; [discriminate|].
    intros (f & d & i & [=] & _).
  - destruct (open_image data) as [img|e] eqn:Himg; cbn [fst].
    + split; [|intros H; exfalso; apply H; reflexivity].
      split; [|reflexivity]. intros _. exists filename, data, img.
      split; [reflexivity|exact Himg].
    + split; [|reflexivity]. split; [discriminate|].
      intros (f & d & i & [= <- <-] & Hok). congruence.
  - split; [|reflexivity]. split; [discriminate|].
    intros (f & d & i & [=] & _).
Qed.

(** X10. Handling a POST of [/analyze] touches nothing: no file is
    read or written and no event is recorded, whatever the request
    holds and however the handler ends. *)
Theorem analyze_leaves_world (g : Globals) (learn : Learner) (request : Request)
  (w : World) :
  req_method request = "POST"%string ->
  req_path request = "/analyze"%string ->
  (respond (app g learn) request w).2 = w.
Proof.
  intros Hm Hp. rewrite (respond_analyze g learn request w Hm Hp).
  unfold respond. pose proof (analyze_trace g learn request w) as Hw.
  destruct (analyze g learn request w) as [[response|e] w']; exact Hw.
Qed.

(** X11. The outcome of the handler depends on the uploaded bytes and
    the learner alone: the file name, the other fields of the form,
    the method and path recorded in the request, the module's names
    and the state of the world make no difference. *)
Theorem analyze_only_file_bytes (g1 g2 : Globals) (learn : Learner)
  (request1 request2 : Request) (w1 w2 : World)
  (filename1 filename2 : string) (data : list byte) :
  req_form request1 !! "file"%string = Some (UploadFile filename1 data) ->
  req_form request2 !! "file"%string = Some (UploadFile filename2 data) ->
  (analyze g1 learn request1 w1).1 = (analyze g2 learn request2 w2).1.
Proof.
  intros H1 H2. unfold analyze, bind, ret, form_getitem, lift.
  rewrite H1, H2. cbn beta iota delta [field_read ret].
  destruct (open_image data); reflexivity.
Qed.

(** ** The page route on a missing or unreadable file *)

(** X12. The status of the answer to a GET of [/] is 200 exactly when
    the HTML file exists and its bytes decode as text; otherwise the
    client gets the server error.  In both cases the disk is as it
    was. *)
Theorem homepage_status (g : Globals) (learn : Learner) (request : Request) (w : World) :
  req_method request = "GET"%string ->
  req_path request = "/"%string ->
  let html_file := joinpath (joinpath (path g) "view") "index.html" in
  let response := (respond (app g learn) request w).1 in
  (status_code response = 200 <->
   exists (content : list byte) (html : string),
     fs w !! html_file = Some content /\ text_decode content = Ok html) /\
  (status_code response <> 200 -> response = server_error) /\
  fs (respond (app g learn) request w).2 = fs w.
Proof.
  intros Hm Hp. cbn zeta.
  rewrite (respond_homepage g learn request w Hm Hp).
  unfold respond, homepage, bind, open_read.
  destruct (fs w !! joinpath (joinpath (path g) "view") "index.html")
    as [content|] eqn:Hfile.
  - destruct (text_decode content) as [html|e] eqn:Hdec; cbn [fst snd log fs].
    + repeat split; [|intros H; exfalso; apply H; reflexivity].
      intros _. exists content, html. split; [reflexivity|exact Hdec].
    + repeat split; try discriminate.
      intros (c & h & [= <-] & Hok). congruence.
  - cbn [fst snd]. repeat split; try discriminate.
    intros (c & h & [=] & _).
Qed.

(** ** The listener at work *)

Lemma respond_world (g : Globals) (learn : Learner) (request : Request) (w : World) :
  fs (respond (app g learn) request w).2 = fs w /\
  (trace (respond (app g learn) request w).2 = trace w \/
   trace (respond (app g learn) request w).2
     = trace w ++ [EvRead (joinpath (joinpath (path g) "view") "index.html")]).
Proof.
  unfold respond, app.
  destruct (String.eqb (req_path request) "/" && String.eqb (req_method request) "GET").
  - unfold homepage, bind, open_read.
    destruct (fs w !! joinpath (joinpath (path g) "view") "index.html") as [content|].
    + destruct (text_decode content); split; try reflexivity; right; reflexivity.
    + split; [reflexivity|left; reflexivity].
  - destruct (String.eqb (req_path request) "/analyze"
              && list_in (req_method request) ["POST"%string]).
    + pose proof (analyze_trace g learn request w) as Hw.
      destruct (analyze g learn request w) as [[resp|e] w']; simpl in Hw; subst w';
        (split; [reflexivity|left; reflexivity]).
    + split; [reflexivity|left; reflexivity].
Qed.

Lemma serve_fs (g : Globals) (learn : Learner) (incoming : list Incoming) :
  forall w : World,
    fs (serve (app g learn) incoming w) = replaced incoming (fs w).
Proof.
  induction incoming as [|[request|p content] rest IH]; intros w; cbn [serve replaced].
  - reflexivity.
  - destruct (respond_world g learn request w) as (Hfs & _).
    destruct (respond (app g learn) request w) as [response w1]. cbn [snd] in Hfs.
    rewrite IH. cbn [log fs]. rewrite Hfs. reflexivity.
  - rewrite IH. reflexivity.
Qed.

Lemma serve_served (g : Globals) (learn : Learner) (incoming : list Incoming) :
  forall w : World,
    exists evs : list Event,
      trace (serve (app g learn) incoming w) = trace w ++ evs /\
      served_requests evs = arrivals incoming.
Proof.
  induction incoming as [|[request|p content] rest IH]; intros w; cbn [serve arrivals].
  - exists []. rewrite app_nil_r. split; reflexivity.
  - destruct (respond_world g learn request w) as (_ & Htr).
    destruct (respond (app g learn) request w) as [response w1]. cbn [snd] in Htr.
    destruct (IH (log (EvServe request response) w1)) as (evs & Hevs & Hserved).
    cbn [log trace] in Hevs. destruct Htr as [Htr|Htr]; rewrite Htr in Hevs.
    + exists (EvServe request response :: evs). rewrite Hevs, <- app_assoc.
      split; [reflexivity|]. cbn [served_requests]. rewrite Hserved. reflexivity.
    + exists (EvRead (joinpath (joinpath (path g) "view") "index.html")
              :: EvServe request response :: evs).
      rewrite Hevs, <- !app_assoc.
      split; [reflexivity|]. cbn [served_requests]. rewrite Hserved. reflexivity.
  - destruct (IH (set_file p content w)) as (evs & Hevs & Hserved).
    exists evs. split; [exact Hevs|exact Hserved].
Qed.

(** X13. While it listens the script only reads: the disk at the end
    is the disk at the start with the files others replaced, no GET is
    made, the artifact is not loaded again and no second listener
    starts. *)
Theorem serve_only_reads (g : Globals) (learn : Learner) (incoming : list Incoming)
  (w : World) :
  let w' := serve (app g learn) incoming w in
  fs w' = replaced incoming (fs w) /\
  gets (events_since w w') = [] /\
  loads (events_since w w') = 0%nat /\
  existsb is_listen (events_since w w') = false.
Proof.
  cbn zeta. split; [apply serve_fs|].
  destruct (serve_events g learn incoming w) as (evs & Htr & Hserving).
  rewrite (events_since_app _ _ _ Htr).
  destruct (serving_only _ Hserving) as (Hl & Hli & _).
  repeat split; [apply serving_gets; exact Hserving|exact Hl|exact Hli].
Qed.

(** Every request that arrives is answered once, in the order of
    arrival, also after requests whose handler raised: the requests
    recorded as served are exactly those that arrived. *)
Lemma serve_answers_every_request (g : Globals) (learn : Learner)
  (incoming : list Incoming) (w : World) :
  served_requests (events_since w (serve (app g learn) incoming w))
  = arrivals incoming.
Proof.
  destruct (serve_served g learn incoming w) as (evs & Htr & Hserved).
  rewrite (events_since_app _ _ _ Htr). exact Hserved.
Qed.

(** X14. Handling keeps no memory: the answer to a request is fixed
    by the request, the learner and the files on the disk at that
    moment.  What was served before, what the network is like and
    everything else in the world make no difference. *)
Theorem respond_stateless (g : Globals) (learn : Learner) (request : Request)
  (w1 w2 : World) :
  fs w1 = fs w2 ->
  (respond (app g learn) request w1).1 = (respond (app g learn) request w2).1.
Proof.
  intros Hfs. unfold respond, app.
  destruct (String.eqb (req_path request) "/" && String.eqb (req_method request) "GET").
  - unfold homepage, bind, open_read. rewrite Hfs.
    destruct (fs w2 !! joinpath (joinpath (path g) "view") "index.html") as [content|];
      [|reflexivity].
    destruct (text_decode content); reflexivity.
  - destruct (String.eqb (req_path request) "/analyze"
              && list_in (req_method request) ["POST"%string]).
    + unfold analyze, bind, ret, form_getitem, lift.
      destruct (req_form request !! "file"%string) as [[text|filename data]|];
        try reflexivity.
      cbn beta iota delta [field_read ret].
      destruct (open_image data); reflexivity.
    + cbn [fst]. rewrite Hfs. reflexivity.
Qed.

(** ** The script as a whole *)

(** X15. Imported under another name than [__main__], the script
    still runs the setup, and stops there: it ends in the world and
    with the outcome of [setup_learner], with no listener and no
    request served, also when [serve] is in [sys.argv]. *)
Theorem server_py_imported (g : Globals) (name : string) (argv : list string)
  (incoming : list Incoming) (w : World) :
  name <> "__main__"%string ->
  let w' := (server_py g name argv incoming w).2 in
  w' = (setup_learner g w).2 /\
  is_ok (server_py g name argv incoming w).1 = is_ok (setup_learner g w).1 /\
  existsb is_listen (events_since w w') = false /\
  served_requests (events_since w w') = [].
Proof.
  intros Hname. apply String.eqb_neq in Hname. cbn zeta.
  destruct (setup_learner_events g w) as (fetch & after & Htr & Hrun & Hshape).
  destruct (fetch_run_is_fetch _ _ _ Hrun) as (_ & _ & Hli & _).
  assert (Hsv : served_requests fetch = []) by (destruct Hrun; reflexivity).
  unfold server_py, bind. rewrite Hname.
  destruct (setup_learner g w) as [[learn|e] w1]; cbn [fst snd ret] in *;
    rewrite (events_since_app _ _ _ Htr), existsb_app, served_requests_app, Hli, Hsv.
  - subst after. repeat split.
  - destruct Hshape as [->|[->|[e0 ->]]]; repeat split.
Qed.

Lemma setup_learner_present (g : Globals) (w : World) :
  is_Some (fs w !! joinpath (path g) (export_file_name g)) ->
  exists after : list Event,
    trace (setup_learner g w).2 = trace w ++ after /\
    gets after = [] /\
    fs (setup_learner g w).2 = fs w.
Proof.
  intros Hsome. unfold setup_learner, bind.
  rewrite download_file_present by exact Hsome.
  unfold try_except, load_learner_io. cbn [log fs].
  destruct (load_learner (fs w) (path g) (export_file_name g)) as [learn|e].
  - exists [EvExists (joinpath (path g) (export_file_name g));
            EvLoad (path g) (export_file_name g)].
    cbn [snd log trace fs]. rewrite <- app_assoc. repeat split.
  - unfold on_load_error, bind, lift.
    destruct (isinstance e "RuntimeError");
      [destruct (cpu_only_test e) as [[|]|te]|].
    + exists [EvExists (joinpath (path g) (export_file_name g));
              EvLoad (path g) (export_file_name g); EvPrint e].
      unfold bind, print, raise. cbn [snd log trace fs].
      rewrite <- !app_assoc. repeat split.
    + exists [EvExists (joinpath (path g) (export_file_name g));
              EvLoad (path g) (export_file_name g)].
      unfold raise. cbn [snd log trace fs]. rewrite <- app_assoc. repeat split.
    + exists [EvExists (joinpath (path g) (export_file_name g));
              EvLoad (path g) (export_file_name g)].
      unfold raise. cbn [snd log trace fs]. rewrite <- app_assoc. repeat split.
    + exists [EvExists (joinpath (path g) (export_file_name g));
              EvLoad (path g) (export_file_name g)].
      unfold raise. cbn [snd log trace fs]. rewrite <- app_assoc. repeat split.
Qed.

(** X16. Started with the artifact on the disk, a whole run of the
    script, setup and serving, makes no GET, and the artifact is still
    on the disk when the run ends; so no later start fetches it
    either. *)
Theorem server_py_artifact_kept (g : Globals) (name : string) (argv : list string)
  (incoming : list Incoming) (w : World) :
  let dest := joinpath (path g) (export_file_name g) in
  let w' := (server_py g name argv incoming w).2 in
  is_Some (fs w !! dest) ->
  gets (events_since w w') = [] /\
  is_Some (fs w' !! dest).
Proof.
  intros dest w' Hsome. subst dest w'.
  destruct (setup_learner_present g w Hsome) as (after & Htr & Hg & Hfs).
  unfold server_py, bind.
  destruct (setup_learner g w) as [[learn|e] w1]; cbn [snd] in Htr, Hfs.
  - assert (Hquiet : gets (events_since w w1) = [] /\
                     is_Some (fs w1 !! joinpath (path g) (export_file_name g))).
    { rewrite (events_since_app _ _ _ Htr), Hfs. split; [exact Hg|exact Hsome]. }
    destruct (String.eqb name "__main__"); [|exact Hquiet].
    destruct (list_in "serve" argv); [|exact Hquiet].
    unfold uvicorn_run. cbn [snd].
    destruct (serve_events g learn incoming (log (EvListen "0.0.0.0" 5000) w1))
      as (evs & Hevs & Hserving).
    cbn [log trace] in Hevs. rewrite Htr, <- !app_assoc in Hevs.
    rewrite (events_since_app _ _ _ Hevs), !gets_app, Hg.
    rewrite (serving_gets _ Hserving), serve_fs. cbn [log fs gets app].
    rewrite Hfs. split; [reflexivity|]. apply replaced_keeps. exact Hsome.
  - cbn [snd]. rewrite (events_since_app _ _ _ Htr), Hfs.
    split; [exact Hg|exact Hsome].
Qed.

End MoreServerProperties.

(** ** The properties at work on the stand-in libraries *)

#[local] Existing Instance Demo.demo_libraries.

(** A whole run: the artifact is fetched, loaded, the listener starts
    and two requests are answered. *)
Example demo_run :
  let w := Demo.world {[ "app/view/index.html"%string := Demo.index_html ]}
                      (Demo.answering 200 Demo.model_file) in
  events_since w
    (server_py Demo.demo_globals "__main__" ["app/server.py"; "serve"]%string
       [Arrives Demo.get_index; Arrives (Demo.upload [x89; x50])] w).2
  = [ EvExists "app/driver";
      EvGet "https://www.dropbox.com/s/v2v5osbpk4m6i4s/driver?dl=0";
      EvWrite "app/driver" Demo.model_file;
      EvLoad "app" "driver";
      EvListen "0.0.0.0" 5000;
      EvRead "app/view/index.html";
      EvServe Demo.get_index (HTMLResponse "<h1>Drivers</h1>");
      EvServe (Demo.upload [x89; x50])
        (JSONResponse (JObject [("result"%string, JString "c1: texting - right")])) ].
Proof. vm_compute. reflexivity. Qed.

Lemma analyze_valid_image_witness :
  let w := Demo.world ∅ Demo.unreachable in
  respond (app Demo.demo_globals [x01]) (Demo.upload [x89; x50]) w
  = (MkResponse 200 "application/json"
       (JsonBody (JObject [("result"%string, JString "c1: texting - right")])), w).
Proof.
  intros w.
  assert (Hform : req_form (Demo.upload [x89; x50]) !! "file"%string
                  = Some (UploadFile "photo.png" [x89; x50]))
    by (vm_compute; reflexivity).
  exact (proj2 (analyze_valid_image Demo.demo_globals [x01] (Demo.upload [x89; x50]) w
                  "photo.png" [x89; x50] [x89; x50] eq_refl eq_refl Hform eq_refl)).
Defined.

Lemma analyze_not_an_image_witness :
  let w := Demo.world ∅ Demo.unreachable in
  respond (app Demo.demo_globals [x01]) (Demo.upload Demo.error_page) w
  = (MkResponse 500 "text/plain" (TextBody "Internal Server Error"), w).
Proof.
  intros w.
  assert (Hform : req_form (Demo.upload Demo.error_page) !! "file"%string
                  = Some (UploadFile "photo.png" Demo.error_page))
    by (vm_compute; reflexivity).
  exact (proj1 (proj2 (analyze_not_an_image Demo.demo_globals [x01]
                         (Demo.upload Demo.error_page) w
                         "photo.png" Demo.error_page Demo.not_an_image
                         eq_refl eq_refl Hform eq_refl))).
Defined.

Lemma homepage_reads_file_witness :
  let w := Demo.world {[ "app/view/index.html"%string := Demo.index_html ]}
                      Demo.unreachable in
  respond (app Demo.demo_globals [x01]) Demo.get_index w
  = (MkResponse 200 "text/html" (TextBody "<h1>Drivers</h1>"),
     log (EvRead "app/view/index.html") w).
Proof.
  intros w.
  assert (Hfile : fs w !! joinpath (joinpath (path Demo.demo_globals) "view") "index.html"
                  = Some Demo.index_html)
    by (vm_compute; reflexivity).
  assert (Hvalid : utf8_valid Demo.index_html = true) by (vm_compute; reflexivity).
  exact (proj1 (homepage_reads_file Demo.demo_globals [x01] Demo.get_index w
                  Demo.index_html eq_refl eq_refl Hfile Hvalid)).
Defined.

(** An [index.html] that ends its line with CR LF: the answer has
    status 200, but its body has lost the CR. *)
Lemma homepage_reads_file_counterexample :
  let content := [x3c; x70; x3e; x0d; x0a] in
  let w := Demo.world {[ "app/view/index.html"%string := content ]} Demo.unreachable in
  exists html : string,
    (respond (app Demo.demo_globals [x01]) Demo.get_index w).1
      = MkResponse 200 "text/html" (TextBody html) /\
    encode_utf8 html = [x3c; x70; x3e; x0a] /\
    encode_utf8 html <> content.
Proof.
  intros content w.
  exists (string_of_list_byte [x3c; x70; x3e; x0a]).
  split; [vm_compute; reflexivity|].
  split; [vm_compute; reflexivity|].
  vm_compute. discriminate.
Qed.



Lemma serve_argument_witness :
  let w := Demo.world {[ "app/driver"%string := Demo.model_file ]} Demo.unreachable in
  let w1 := log (EvLoad "app" "driver") (log (EvExists "app/driver") w) in
  server_py Demo.demo_globals "__main__" ["app/server.py"; "serve"]%string
    [Arrives Demo.get_index] w
  = (Ok tt, serve (app Demo.demo_globals [x01; x02]) [Arrives Demo.get_index]
              (log (EvListen "0.0.0.0" 5000) w1)) /\
  server_py Demo.demo_globals "__main__" ["app/server.py"]%string
    [Arrives Demo.get_index] w
  = (Ok tt, w1).
Proof.
  intros w w1.
  assert (Hsetup : setup_learner Demo.demo_globals w = (Ok [x01; x02], w1))
    by (vm_compute; reflexivity).
  split.
  - apply (proj1 (serve_argument Demo.demo_globals "app/" ["serve"%string]
                    [Arrives Demo.get_index] w)); [left; reflexivity|exact Hsetup].
  - pose proof (proj2 (serve_argument Demo.demo_globals "app/" []
                         [Arrives Demo.get_index] w) (fun H : In "serve"%string [] => H)) as P.
    change (("app/" +:+ "server.py")%string :: []) with ["app/server.py"%string] in P.
    destruct (server_py Demo.demo_globals "__main__" ["app/server.py"%string]
                [Arrives Demo.get_index] w) as [r w'].
    rewrite Hsetup in P. destruct P as (-> & -> & _). reflexivity.
Defined.

(** ** The further properties at work *)

Lemma download_file_ensures_file_witness :
  let w := Demo.world ∅ (Demo.answering 200 Demo.model_file) in
  let w1 := (download_file "https://example.org/driver" "app/driver" w).2 in
  is_Some (fs w1 !! "app/driver"%string) /\
  download_file "https://example.org/other" "app/driver"
    (later (Demo.unreachable, Faults.read_only_disk) w1)
  = (Ok tt, log (EvExists "app/driver") (later (Demo.unreachable, Faults.read_only_disk) w1)).
Proof.
  intros w w1.
  assert (Hrun : download_file "https://example.org/driver" "app/driver" w = (Ok tt, w1))
    by (vm_compute; reflexivity).
  destruct (download_file_ensures_file _ _ _ _ Hrun) as (Hsome & Hlater).
  split; [exact Hsome|].
  exact (Hlater (Demo.unreachable, Faults.read_only_disk) "https://example.org/other"%string).
Defined.

Lemma download_file_other_files_witness :
  let w := Demo.world {[ "app/view/index.html"%string := Demo.index_html ]}
                      (Demo.answering 200 Demo.model_file) in
  fs (download_file "https://example.org/driver" "app/driver" w).2
    !! "app/view/index.html"%string
  = fs w !! "app/view/index.html"%string.
Proof.
  intros w. apply download_file_other_files. discriminate.
Defined.

Lemma download_file_failure_writes_nothing_witness :
  let w := Demo.world ∅ Demo.unreachable in
  (download_file "https://example.org/driver" "app/driver" w).1
    = Raise (MkExn "ClientConnectorError" ("OSError"%string :: exception_bases)
               [VStr "Cannot connect to host"]) /\
  fs (download_file "https://example.org/driver" "app/driver" w).2 !! "app/driver"%string
    = None.
Proof.
  intros w.
  destruct (download_file_failure_writes_nothing
              "https://example.org/driver" "app/driver" w
              (MkExn "ClientConnectorError" ("OSError"%string :: exception_bases)
                 [VStr "Cannot connect to host"])
              eq_refl (or_introl eq_refl)) as (Hrun & _ & Hnone).
  split; [rewrite Hrun; reflexivity|exact Hnone].
Defined.

Lemma download_file_truncated_file_kept_witness :
  let w := MkWorld ∅ (Demo.answering 200 Demo.model_file) Faults.full_disk [] in
  (download_file "https://example.org/driver" "app/driver" w).1 = Raise Faults.no_space /\
  fs (download_file "https://example.org/driver" "app/driver" w).2 !! "app/driver"%string
    = Some [x80; x01].
Proof.
  intros w.
  destruct (download_file_truncated_file_kept
              "https://example.org/driver" "app/driver" w
              (MkClientResponse 200 (Ok Demo.model_file)) Demo.model_file 2
              Faults.no_space eq_refl eq_refl eq_refl eq_refl) as (Hr & Hf & _).
  split; [exact Hr|exact Hf].
Defined.

Lemma setup_learner_fetch_failure_witness :
  let w := Demo.world ∅ Faults.confusing_network in
  setup_learner Demo.demo_globals w
  = (Raise Demo.cuda_error,
     log (EvGet "https://www.dropbox.com/s/v2v5osbpk4m6i4s/driver?dl=0")
       (log (EvExists "app/driver") w)).
Proof.
  intros w.
  assert (Hfetch : download_file (export_file_url Demo.demo_globals)
                     (joinpath (path Demo.demo_globals)
                        (export_file_name Demo.demo_globals)) w
                   = (Raise Demo.cuda_error,
                      log (EvGet "https://www.dropbox.com/s/v2v5osbpk4m6i4s/driver?dl=0")
                        (log (EvExists "app/driver") w)))
    by (vm_compute; reflexivity).
  exact (proj1 (setup_learner_fetch_failure (Lib := Demo.demo_libraries) Demo.demo_globals w _ _ Hfetch)).
Defined.

Lemma setup_learner_cold_start_witness :
  let w := Demo.world ∅ (Demo.answering 200 Demo.model_file) in
  (setup_learner Demo.demo_globals w).1 = Ok [x01; x02] /\
  fs (setup_learner Demo.demo_globals w).2 !! "app/driver"%string = Some Demo.model_file.
Proof.
  intros w.
  assert (Hload : load_learner
                    (<[joinpath (path Demo.demo_globals)
                         (export_file_name Demo.demo_globals) := Demo.model_file]> (fs w))
                    (path Demo.demo_globals) (export_file_name Demo.demo_globals)
                  = Ok [x01; x02])
    by (vm_compute; reflexivity).
  destruct (setup_learner_cold_start (Lib := Demo.demo_libraries) Demo.demo_globals w
              (MkClientResponse 200 (Ok Demo.model_file)) Demo.model_file [x01; x02]
              eq_refl eq_refl eq_refl eq_refl Hload) as (Hr & Hf & _).
  split; [exact Hr|]. rewrite Hf. apply lookup_insert_eq.
Defined.

Lemma analyze_missing_file_witness :
  let w := Demo.world ∅ Demo.unreachable in
  analyze Demo.demo_globals [x01] Faults.empty_post w
  = (Raise (KeyError [VStr "file"]), w).
Proof.
  intros w.
  assert (Hform : req_form Faults.empty_post !! "file"%string = None)
    by (vm_compute; reflexivity).
  exact (proj1 (analyze_missing_file (Lib := Demo.demo_libraries) Demo.demo_globals [x01] Faults.empty_post w Hform)).
Defined.

Lemma analyze_text_field_witness :
  let w := Demo.world ∅ Demo.unreachable in
  respond (analyze Demo.demo_globals [x01]) Faults.text_upload w = (server_error, w).
Proof.
  intros w.
  assert (Hform : req_form Faults.text_upload !! "file"%string
                  = Some (FormText "photo.png"))
    by (vm_compute; reflexivity).
  exact (proj2 (analyze_text_field (Lib := Demo.demo_libraries) Demo.demo_globals [x01] Faults.text_upload w
                  "photo.png" Hform)).
Defined.

Lemma analyze_status_witness :
  let w := Demo.world ∅ Demo.unreachable in
  status_code (respond (app Demo.demo_globals [x01]) (Demo.upload [x89; x50]) w).1 = 200 /\
  (respond (app Demo.demo_globals [x01]) Faults.text_upload w).1 = server_error.
Proof.
  intros w. split.
  - apply (proj1 (analyze_status (Lib := Demo.demo_libraries) Demo.demo_globals [x01] (Demo.upload [x89; x50]) w
                    eq_refl eq_refl)).
    exists "photo.png"%string, [x89; x50], [x89; x50].
    split; vm_compute; reflexivity.
  - apply (proj2 (analyze_status (Lib := Demo.demo_libraries) Demo.demo_globals [x01] Faults.text_upload w
                    eq_refl eq_refl)).
    vm_compute. discriminate.
Defined.

Lemma analyze_leaves_world_witness :
  let w := Demo.world ∅ Demo.unreachable in
  (respond (app Demo.demo_globals [x01]) (Demo.upload Demo.error_page) w).2 = w.
Proof.
  intros w.
  exact (analyze_leaves_world (Lib := Demo.demo_libraries) Demo.demo_globals [x01] (Demo.upload Demo.error_page) w
           eq_refl eq_refl).
Defined.

Lemma analyze_only_file_bytes_witness :
  let other := MkRequest "PUT" "/elsewhere"
                 {[ "file"%string := UploadFile "other.jpg" [x89; x50];
                    "note"%string := FormText "hello" ]} in
  (analyze Demo.demo_globals [x01] (Demo.upload [x89; x50])
     (Demo.world ∅ Demo.unreachable)).1
  = (analyze (with_classes [] Demo.demo_globals) [x01] other
       (Demo.world {[ "app/driver"%string := Demo.model_file ]}
          (Demo.answering 200 Demo.model_file))).1.
Proof.
  intros other.
  assert (H1 : req_form (Demo.upload [x89; x50]) !! "file"%string
               = Some (UploadFile "photo.png" [x89; x50]))
    by (vm_compute; reflexivity).
  assert (H2 : req_form other !! "file"%string
               = Some (UploadFile "other.jpg" [x89; x50]))
    by (vm_compute; reflexivity).
  exact (analyze_only_file_bytes (Lib := Demo.demo_libraries) _ _ [x01] _ _ _ _ _ _ _ H1 H2).
Defined.

Lemma homepage_status_witness :
  let w := Demo.world ∅ Demo.unreachable in
  (respond (app Demo.demo_globals [x01]) Demo.get_index w).1 = server_error /\
  fs (respond (app Demo.demo_globals [x01]) Demo.get_index w).2 = fs w.
Proof.
  intros w.
  destruct (homepage_status (Lib := Demo.demo_libraries) Demo.demo_globals [x01] Demo.get_index w eq_refl eq_refl)
    as (_ & Herr & Hfs).
  split; [|exact Hfs]. apply Herr. vm_compute. discriminate.
Defined.

Lemma server_py_imported_witness :
  let w := Demo.world {[ "app/driver"%string := Demo.model_file ]} Demo.unreachable in
  (server_py Demo.demo_globals "app.server" ["uvicorn"; "serve"]%string
     [Arrives Demo.get_index] w).2
  = (setup_learner Demo.demo_globals w).2.
Proof.
  intros w.
  assert (Hname : "app.server"%string <> "__main__"%string) by discriminate.
  exact (proj1 (server_py_imported (Lib := Demo.demo_libraries) Demo.demo_globals "app.server"
                  ["uvicorn"; "serve"]%string [Arrives Demo.get_index] w Hname)).
Defined.

Lemma server_py_artifact_kept_witness :
  let w := Demo.world {[ "app/driver"%string := Demo.model_file ]} Demo.unreachable in
  let w' := (server_py Demo.demo_globals "__main__" ["app/server.py"; "serve"]%string
               [Arrives Demo.get_index; Replaces "app/driver" Demo.error_page;
                Arrives (Demo.upload [x89; x50])] w).2 in
  gets (events_since w w') = [] /\ is_Some (fs w' !! "app/driver"%string).
Proof.
  intros w w'.
  assert (Hsome : is_Some (fs w !! joinpath (path Demo.demo_globals)
                                     (export_file_name Demo.demo_globals)))
    by (vm_compute; eauto).
  exact (server_py_artifact_kept (Lib := Demo.demo_libraries) Demo.demo_globals "__main__"
           ["app/server.py"; "serve"]%string
           [Arrives Demo.get_index; Replaces "app/driver" Demo.error_page;
            Arrives (Demo.upload [x89; x50])] w Hsome).
Defined.

Lemma respond_stateless_witness :
  let files : gmap string (list byte) :=
    {[ "app/view/index.html"%string := Demo.index_html ]} in
  let busy := MkWorld files (Demo.answering 200 Demo.model_file) Faults.full_disk
                [EvListen "0.0.0.0" 5000;
                 EvServe Faults.empty_post server_error] in
  (respond (app Demo.demo_globals [x01]) Demo.get_index (Demo.world files Demo.unreachable)).1
  = (respond (app Demo.demo_globals [x01]) Demo.get_index busy).1.
Proof.
  intros files busy.
  exact (respond_stateless (Lib := Demo.demo_libraries) Demo.demo_globals [x01]
           Demo.get_index (Demo.world files Demo.unreachable) busy eq_refl).
Defined.
